(** * Shopping assistant: preference state machine and retrieval filter

    A shallow embedding of the preference service
    (services/preference_service.py), the preference record
    (models/preferences.py), the vocabularies (config/settings.py), the
    candidate filter (utils/validators.py, services/search_service.py) and
    the per-turn workflow (workflows/conversation_flow.py).

    Conventions of the embedding.
    - Python [str] is [string]; utterances and tokens are taken to be ASCII,
      so [str.lower] acts on the letters A-Z only.
    - A JSON number (price bound, price metadata) is a rational [Q].
    - A Python list of strings is [list string]; [list(dict.fromkeys(l))]
      is [dict_fromkeys l].
    - A call that may raise returns a [Result]; the session (preference
      record, chat memory) is threaded explicitly and survives a raise. *)

From Stdlib Require Import String Ascii List Bool Arith ZArith QArith Lia.
From Stdlib Require Import Permutation Sorted.
Import ListNotations.
Open Scope string_scope.
Open Scope list_scope.

(** ** Python string primitives *)

Module PyStr.

(** [c.lower()] on an ASCII letter. *)
Definition lower_ascii (c : ascii) : ascii :=
  let n := nat_of_ascii c in
  if (65 <=? n)%nat && (n <=? 90)%nat then ascii_of_nat (n + 32) else c.

(** [s.lower()]. *)
Fixpoint lower (s : string) : string :=
  match s with
  | EmptyString => EmptyString
  | String c t => String (lower_ascii c) (lower t)
  end.

(** [c.isspace()] for an ASCII character: tab, line feed, vertical tab,
    form feed, carriage return, the four separators 28-31 and space. *)
Definition is_space (c : ascii) : bool :=
  let n := nat_of_ascii c in
  ((9 <=? n)%nat && (n <=? 13)%nat)
  || ((28 <=? n)%nat && (n <=? 31)%nat)
  || (n =? 32)%nat.

Fixpoint lstrip (s : string) : string :=
  match s with
  | EmptyString => EmptyString
  | String c t => if is_space c then lstrip t else s
  end.

(** Drops trailing white space: a character is kept when something
    that is kept follows it or when it is not white space. *)
Fixpoint rstrip (s : string) : string :=
  match s with
  | EmptyString => EmptyString
  | String c t =>
      match rstrip t with
      | EmptyString => if is_space c then EmptyString else String c EmptyString
      | r => String c r
      end
  end.

(** [s.strip()]. *)
Definition strip (s : string) : string := rstrip (lstrip s).

(** [needle in hay] for two strings. *)
Fixpoint contains (needle hay : string) : bool :=
  String.prefix needle hay
  || match hay with
     | EmptyString => false
     | String _ t => contains needle t
     end.

(** [s.replace(c, '')] for a one-character [c]. *)
Fixpoint remove_char (c : ascii) (s : string) : string :=
  match s with
  | EmptyString => EmptyString
  | String d t =>
      if Ascii.eqb c d then remove_char c t else String d (remove_char c t)
  end.

(** [len(s.split())]: the number of maximal runs of characters that are
    not white space. [inword] tells whether the previous character
    belonged to a word. *)
Fixpoint count_words (inword : bool) (s : string) : nat :=
  match s with
  | EmptyString => 0
  | String c t =>
      if is_space c then count_words false t
      else if inword then count_words true t
      else S (count_words true t)
  end.

(** [sep.join(l)]. *)
Fixpoint join (sep : string) (l : list string) : string :=
  match l with
  | [] => EmptyString
  | [x] => x
  | x :: t => (x ++ sep ++ join sep t)%string
  end.

(** [x in l] for a list (or set) of strings. *)
Definition mem (x : string) (l : list string) : bool :=
  existsb (String.eqb x) l.

(** [any(t in s for t in terms)]. *)
Definition any_in (terms : list string) (s : string) : bool :=
  existsb (fun t => contains t s) terms.

End PyStr.

(** ** config/settings.py *)

Module Settings.

Definition BAG_CATEGORIES : list string :=
  [ "tote"; "shoulder bag"; "duffle bag"; "backpack"; "clutch"; "crossbody";
    "handbag"; "messenger"; "satchel"; "laptop bag"; "briefcase"; "wristlet";
    "wallet"; "purse" ].

Definition VALID_BRANDS : list string :=
  [ "1978W"; "Active Flex"; "Alan Pinkus"; "Amelia Lane"; "American Tourister";
    "Armani Exchange"; "Australian House & Garden"; "Basque"; "Belle & Bloom";
    "Billabong"; "Boutique Retailer"; "Calvin Klein"; "Cellini"; "Cellini Sport";
    "Commonry"; "Country Road"; "Creed"; "David Lawrence"; "Delsey"; "Disney";
    "Dune London"; "Elliker"; "emerge Woman"; "Fella Hamilton"; "Fine Day";
    "Forever New"; "Fossil"; "GAP"; "Guess"; "Hedgren"; "Hot Wheels";
    "Jane Debster"; "Joan Weisz"; "Kinnon"; "La Enviro"; "Lacoste";
    "Lauren Ralph Lauren"; "Levi's"; "Madison Accessories"; "Maine & Crawford";
    "Marcs"; "Maxwell & Williams"; "Milleni"; "Mimco"; "Mocha"; "Morgan & Taylor";
    "Nakedvice"; "NINA"; "Nine West"; "Novo Shoes"; "OiOi"; "Olga Berg"; "Oxford";
    "PIERRE CARDIN"; "PINK INC"; "Piper"; "Prairie"; "Radley"; "Ravella";
    "Rebecca Minkoff"; "REVIEW"; "Roxy"; "RVCA"; "Samsonite"; "Sandler";
    "Sass & Bide"; "Scala"; "Seafolly"; "Seed Heritage"; "Senso"; "Status Anxiety";
    "Steve Madden"; "Taking Shape"; "TATONKA"; "Tokito"; "Tommy Hilfiger"; "Tonic";
    "Trenery"; "Trent Nathan"; "Unison"; "Wishes"; "Witchery"; "Yellow Drama" ].

Definition BRAND_CORRECTIONS : list (string * string) :=
  [ ("ck", "Calvin Klein"); ("rm", "Rebecca Minkoff"); ("th", "Tommy Hilfiger");
    ("pierre", "PIERRE CARDIN"); ("calvin", "Calvin Klein");
    ("tommy", "Tommy Hilfiger"); ("ralph lauren", "Lauren Ralph Lauren");
    ("american t", "American Tourister"); ("fossil bag", "Fossil");
    ("guess bag", "Guess") ].

End Settings.

(** [d.get(k)] / [k in d] on a dictionary with string keys, kept as an
    association list. *)
Fixpoint dict_get {V : Type} (k : string) (d : list (string * V)) : option V :=
  match d with
  | [] => None
  | (k', v) :: t => if String.eqb k k' then Some v else dict_get k t
  end.

(** ** models/preferences.py *)

Record UserPreferences : Type := mkPrefs {
  price_min : option Q;
  price_max : option Q;
  brands : list string;
  categories : list string;
  colors : list string;
  materials : list string;
  features : list string
}.

(** [UserPreferences()] : every field at its default. *)
Definition empty_preferences : UserPreferences :=
  mkPrefs None None [] [] [] [] [].

(** [UserPreferences.clear]. *)
Definition clear (p : UserPreferences) : UserPreferences :=
  mkPrefs None None [] [] [] [] [].

(** Truth value of a list: [if l:]. *)
Definition nonempty {A : Type} (l : list A) : bool :=
  match l with [] => false | _ :: _ => true end.

Definition is_some {A : Type} (o : option A) : bool :=
  match o with Some _ => true | None => false end.

(** [UserPreferences.has_active_preferences]. *)
Definition has_active_preferences (p : UserPreferences) : bool :=
  is_some (price_min p) || is_some (price_max p) || nonempty (brands p)
  || nonempty (categories p) || nonempty (colors p) || nonempty (materials p)
  || nonempty (features p).

(** ** services/preference_service.py *)

(** One insertion of [dict.fromkeys]: a key already present keeps its
    place, a new key goes last. *)
Definition dict_add (acc : list string) (x : string) : list string :=
  if PyStr.mem x acc then acc else acc ++ [x].

(** [list(dict.fromkeys(l))]. *)
Definition dict_fromkeys (l : list string) : list string :=
  fold_left dict_add l [].

(** The spec's wording of deduplication: walk the list and keep an entry
    exactly when it has not been seen before. *)
Fixpoint first_seen (seen : list string) (l : list string) : list string :=
  match l with
  | [] => []
  | x :: t =>
      if PyStr.mem x seen then first_seen seen t
      else x :: first_seen (x :: seen) t
  end.

(** [PreferenceService._validate_brands]: the pair (valid, invalid). *)
Fixpoint _validate_brands (bs : list string) : list string * list string :=
  match bs with
  | [] => ([], [])
  | brand :: rest =>
      let brand_lower := PyStr.strip (PyStr.lower brand) in
      let '(valid, invalid) := _validate_brands rest in
      match find (fun vb => String.eqb brand_lower (PyStr.lower vb))
                 Settings.VALID_BRANDS with
      | Some vb => (vb :: valid, invalid)
      | None =>
          match dict_get brand_lower Settings.BRAND_CORRECTIONS with
          | Some c => (c :: valid, invalid)
          | None => (valid, brand :: invalid)
          end
      end
  end.

Definition category_corrections : list (string * string) :=
  [ ("tote", "tote bag"); ("cross body", "crossbody"); ("cross-body", "crossbody");
    ("shoulder", "shoulder bag"); ("laptop", "laptop bag"); ("duffle", "duffle bag");
    ("duffel", "duffle bag") ].

(** The body of [_validate_categories] over a category vocabulary
    [vocab]: the pair (valid_categories, features_to_add). *)
Fixpoint validate_categories_in (vocab : list string) (cs : list string)
  : list string * list string :=
  match cs with
  | [] => ([], [])
  | c :: rest =>
      let category := PyStr.strip (PyStr.lower c) in
      let '(valid, feats) := validate_categories_in vocab rest in
      if PyStr.mem category vocab then (category :: valid, feats)
      else
        match dict_get category category_corrections with
        | Some corrected =>
            if PyStr.mem corrected vocab then (corrected :: valid, feats)
            else (valid, feats)
        | None =>
            if PyStr.mem (category ++ " bag")%string vocab
            then ((category ++ " bag")%string :: valid, feats)
            else if negb (String.eqb category "tote")
                 then (valid, category :: feats)
                 else (valid, feats)
        end
  end.

(** [PreferenceService._validate_categories]. *)
Definition _validate_categories (cs : list string) : list string * list string :=
  validate_categories_in Settings.BAG_CATEGORIES cs.

Definition append_indicators : list string :=
  [ "also"; "as well"; "additionally"; "and"; "too"; "along with" ].

(** [PreferenceService._analyze_intent]: [true] is append mode. *)
Definition _analyze_intent (user_input : string) : bool :=
  PyStr.any_in append_indicators (PyStr.lower user_input).

(** [PreferenceService._merge_preferences]: the record after the merge.
    In append mode every list is extended and then rebuilt through
    [dict.fromkeys]; in replace mode a list is overwritten only by a
    non-empty one; the price bounds are updated last, in both modes. *)
Definition _merge_preferences (cur new_prefs : UserPreferences)
           (append_mode : bool) : UserPreferences :=
  let merged :=
    if append_mode then
      mkPrefs (price_min cur) (price_max cur)
              (dict_fromkeys (brands cur ++ brands new_prefs))
              (dict_fromkeys (categories cur ++ categories new_prefs))
              (dict_fromkeys (colors cur ++ colors new_prefs))
              (dict_fromkeys (materials cur ++ materials new_prefs))
              (dict_fromkeys (features cur ++ features new_prefs))
    else
      mkPrefs (price_min cur) (price_max cur)
              (if nonempty (brands new_prefs) then brands new_prefs else brands cur)
              (if nonempty (categories new_prefs) then categories new_prefs
               else categories cur)
              (if nonempty (colors new_prefs) then colors new_prefs else colors cur)
              (if nonempty (materials new_prefs) then materials new_prefs
               else materials cur)
              (if nonempty (features new_prefs) then features new_prefs
               else features cur) in
  mkPrefs (match price_min new_prefs with
           | Some v => Some v
           | None => price_min merged
           end)
          (match price_max new_prefs with
           | Some v => Some v
           | None => price_max merged
           end)
          (brands merged) (categories merged) (colors merged)
          (materials merged) (features merged).

(** What a reference taken before [_merge_preferences] to the record's
    price values and list objects shows after it. Append mode extends the
    old list objects in place before the record is bound to fresh
    deduplicated lists; replace mode and the price update only rebind. *)
Definition _merge_preferences_stale (cur new_prefs : UserPreferences)
           (append_mode : bool) : UserPreferences :=
  if append_mode then
    mkPrefs (price_min cur) (price_max cur)
            (brands cur ++ brands new_prefs)
            (categories cur ++ categories new_prefs)
            (colors cur ++ colors new_prefs)
            (materials cur ++ materials new_prefs)
            (features cur ++ features new_prefs)
  else cur.

(** The delta as [_validate_and_merge] hands it to the merger. *)
Definition normalize (new_prefs : UserPreferences) : UserPreferences :=
  let bs := if nonempty (brands new_prefs)
            then fst (_validate_brands (brands new_prefs))
            else brands new_prefs in
  let '(cs, fs) :=
    if nonempty (categories new_prefs)
    then let '(valid, feats) := _validate_categories (categories new_prefs) in
         (valid, features new_prefs ++ feats)
    else (categories new_prefs, features new_prefs) in
  mkPrefs (price_min new_prefs) (price_max new_prefs) bs cs
          (colors new_prefs) (materials new_prefs) fs.

(** [PreferenceService._validate_and_merge]. *)
Definition _validate_and_merge (cur new_prefs : UserPreferences)
           (user_input : string) : UserPreferences :=
  _merge_preferences cur (normalize new_prefs) (_analyze_intent user_input).

(** ** Python [float()] on price metadata *)

Module PyFloat.

(** Character classes of a decimal literal. *)
Inductive cls : Type :=
| CSpace | CSign (negative : bool) | CDigit (d : Z) | CDot | CExp | COther.

Definition classify (c : ascii) : cls :=
  let n := nat_of_ascii c in
  if PyStr.is_space c then CSpace
  else if (48 <=? n)%nat && (n <=? 57)%nat then CDigit (Z.of_nat (n - 48))
  else if (n =? 43)%nat then CSign false
  else if (n =? 45)%nat then CSign true
  else if (n =? 46)%nat then CDot
  else if (n =? 101)%nat || (n =? 69)%nat then CExp
  else COther.

(** Where the scan stands: leading white space, after the sign, in the
    integer digits, after a leading dot, in the fraction, after the
    exponent mark, after the exponent sign, in the exponent digits, in
    the trailing white space. *)
Inductive phase : Type :=
| PStart | PSign | PInt | PDot | PFrac | PExp | PExpSign | PExpDigits | PTrail.

Record scan : Type := mkScan {
  ph : phase;
  neg : bool;          (* sign of the mantissa *)
  mant : Z;            (* digits of the mantissa read so far *)
  fracs : Z;           (* how many of them follow the dot *)
  eneg : bool;         (* sign of the exponent *)
  expo : Z             (* exponent digits read so far *)
}.

Definition scan0 : scan := mkScan PStart false 0 0 false 0.

Definition to (p : phase) (s : scan) : scan :=
  mkScan p (neg s) (mant s) (fracs s) (eneg s) (expo s).

Definition int_digit (d : Z) (s : scan) : scan :=
  mkScan PInt (neg s) (10 * mant s + d) (fracs s) (eneg s) (expo s).

Definition frac_digit (d : Z) (s : scan) : scan :=
  mkScan PFrac (neg s) (10 * mant s + d) (fracs s + 1) (eneg s) (expo s).

Definition exp_digit (d : Z) (s : scan) : scan :=
  mkScan PExpDigits (neg s) (mant s) (fracs s) (eneg s) (10 * expo s + d).

Definition step (s : scan) (c : cls) : option scan :=
  match ph s, c with
  | PStart, CSpace => Some s
  | PStart, CSign b =>
      Some (mkScan PSign b (mant s) (fracs s) (eneg s) (expo s))
  | (PStart | PSign | PInt), CDigit d => Some (int_digit d s)
  | (PStart | PSign), CDot => Some (to PDot s)
  | PInt, CDot => Some (to PFrac s)
  | (PDot | PFrac), CDigit d => Some (frac_digit d s)
  | (PInt | PFrac), CExp => Some (to PExp s)
  | PExp, CSign b =>
      Some (mkScan PExpSign (neg s) (mant s) (fracs s) b (expo s))
  | (PExp | PExpSign | PExpDigits), CDigit d => Some (exp_digit d s)
  | (PInt | PFrac | PExpDigits | PTrail), CSpace => Some (to PTrail s)
  | _, _ => None
  end.

Fixpoint run (s : scan) (str : string) : option scan :=
  match str with
  | EmptyString => Some s
  | String c t =>
      match step s (classify c) with
      | Some s' => run s' t
      | None => None
      end
  end.

(** The number read, when the scan stopped where a literal may end. *)
Definition value (s : scan) : option Q :=
  match ph s with
  | PInt | PFrac | PExpDigits | PTrail =>
      let m := if neg s then (- mant s)%Z else mant s in
      let e := if eneg s then (- expo s)%Z else expo s in
      Some (inject_Z m * Qpower (10 # 1) (e - fracs s))
  | _ => None
  end.

(** [float(s)] for a string: a finite decimal literal with optional
    sign, fraction and exponent, white space around it allowed. The
    spellings of infinity and not-a-number and digit grouping with
    underscores have no rational value and are not read. *)
Definition of_string (str : string) : option Q :=
  match run scan0 str with
  | Some s => value s
  | None => None
  end.

End PyFloat.

(** A metadata value as [float()] sees it: a string, a number, or a
    value of another type ([None], a list, ...). *)
Inductive PyValue : Type :=
| VStr (s : string)
| VNum (q : Q)
| VOther.

Inductive FloatError : Type := ValueError | TypeError.

(** [float(v)]. *)
Definition py_float (v : PyValue) : FloatError + Q :=
  match v with
  | VStr s =>
      match PyFloat.of_string s with
      | Some q => inr q
      | None => inl ValueError
      end
  | VNum q => inr q
  | VOther => inl TypeError
  end.

(** ** langchain [Document] with the metadata keys the code reads *)

Record Metadata : Type := mkMeta {
  meta_name : option string;
  meta_brand : option string;
  meta_price : option PyValue;
  meta_url : option string
}.

Record Document : Type := mkDoc {
  page_content : string;
  metadata : Metadata
}.

(** [d.get(k, default)]. *)
Definition get_or {A : Type} (o : option A) (default : A) : A :=
  match o with Some a => a | None => default end.

(** ** utils/validators.py *)

Definition Qgt_bool (x y : Q) : bool := negb (Qle_bool x y).
Definition Qlt_bool (x y : Q) : bool := negb (Qle_bool y x).

(** The price test of [matches_preferences], run only when a bound is
    set; a string price loses its dollar signs and commas first. *)
Definition price_ok (meta : Metadata) (preferences : UserPreferences) : bool :=
  if is_some (price_min preferences) || is_some (price_max preferences) then
    let doc_price := get_or (meta_price meta) (VNum 0) in
    let parsed :=
      match doc_price with
      | VStr s => py_float (VStr (PyStr.remove_char "," (PyStr.remove_char "$" s)))
      | _ => py_float doc_price
      end in
    match parsed with
    | inr p =>
        if match price_max preferences with
           | Some mx => Qgt_bool p mx
           | None => false
           end then false
        else if match price_min preferences with
                | Some mn => Qlt_bool p mn
                | None => false
                end then false
        else true
    | inl _ => false
    end
  else true.

(** [matches_preferences]. *)
Definition matches_preferences (doc : Document) (preferences : UserPreferences)
  : bool :=
  let meta := metadata doc in
  let content_lower := PyStr.lower (page_content doc) in
  let doc_name := PyStr.lower (get_or (meta_name meta) "") in
  let searchable_text := (doc_name ++ " " ++ content_lower)%string in
  if negb (price_ok meta preferences) then false
  else if nonempty (brands preferences)
          && negb (existsb (fun b => PyStr.contains (PyStr.lower b)
                                        (PyStr.lower (get_or (meta_brand meta) "")))
                           (brands preferences)) then false
  else if nonempty (colors preferences)
          && negb (existsb (fun c => PyStr.contains (PyStr.lower c) searchable_text)
                           (colors preferences)) then false
  else if nonempty (categories preferences)
          && negb (existsb (fun c => PyStr.contains (PyStr.lower c) searchable_text)
                           (categories preferences)) then false
  else true.

Definition shopping_terms : list string :=
  [ "bag"; "handbag"; "purse"; "tote"; "backpack"; "clutch"; "wallet";
    "shopping"; "buy"; "purchase"; "price"; "cost"; "delivery"; "shipping";
    "brand"; "leather"; "canvas"; "product"; "item"; "store" ].

Definition common_phrases : list string :=
  [ "hi"; "hello"; "thank"; "bye"; "help"; "clear"; "reset" ].

(** [is_relevant_to_shopping]. *)
Definition is_relevant_to_shopping (user_input : string) : bool :=
  PyStr.any_in (shopping_terms ++ common_phrases) (PyStr.lower user_input).

(** ** Exceptions and the session monad *)

(** A raised exception; collaborators fail with [CollaboratorError]. *)
Inductive Exn : Type :=
| FloatExn (e : FloatError)
| CollaboratorError (msg : string).

Inductive Result (A : Type) : Type :=
| Ok (a : A)
| Raise (e : Exn).
Arguments Ok {A} a.
Arguments Raise {A} e.

(** langchain chat messages. *)
Inductive Message : Type :=
| HumanMessage (content : string)
| AIMessage (content : string).

(** The mutable objects of one conversation: the preference record of
    the preference service, the chat memory of the workflow, and the
    number of collaborator calls made so far (a collaborator may answer
    the same request differently from one call to the next).
    [stale_preferences] is what a dictionary built by [to_dict] before
    the latest [update_preferences] shows afterwards: it holds the old
    price values and shares the old list objects. *)
Record Session : Type := mkSession {
  current_preferences : UserPreferences;
  stale_preferences : UserPreferences;
  memory : list Message;
  calls : nat
}.

(** A computation on the session that returns or raises; the session
    keeps the changes made before a raise. *)
Definition M (A : Type) : Type := Session -> Session * Result A.

Definition ret {A : Type} (a : A) : M A := fun s => (s, Ok a).

Definition raise {A : Type} (e : Exn) : M A := fun s => (s, Raise e).

Definition bind {A B : Type} (m : M A) (k : A -> M B) : M B :=
  fun s =>
    match m s with
    | (s', Ok a) => k a s'
    | (s', Raise e) => (s', Raise e)
    end.

(** [try: m  except Exception: h]. *)
Definition try_except {A : Type} (m : M A) (h : Exn -> M A) : M A :=
  fun s =>
    match m s with
    | (s', Ok a) => (s', Ok a)
    | (s', Raise e) => h e s'
    end.

Definition get_session : M Session := fun s => (s, Ok s).

Definition modify (f : Session -> Session) : M unit := fun s => (f s, Ok tt).

(** The result of a collaborator call, lifted. *)
Definition lift {A : Type} (r : Result A) : M A := fun s => (s, r).

Declare Scope session_scope.
Delimit Scope session_scope with session.
Notation "x <- m ;; k" := (bind m (fun x => k))
  (at level 61, m at next level, right associativity) : session_scope.
Notation "m ;;; k" := (bind m (fun _ => k))
  (at level 61, right associativity) : session_scope.
Open Scope session_scope.

Definition set_preferences (p : UserPreferences) (s : Session) : Session :=
  mkSession p (stale_preferences s) (memory s) (calls s).

Definition set_stale (p : UserPreferences) (s : Session) : Session :=
  mkSession (current_preferences s) p (memory s) (calls s).

Definition add_message (m : Message) (s : Session) : Session :=
  mkSession (current_preferences s) (stale_preferences s) (memory s ++ [m]) (calls s).

(** Takes the number of the next collaborator call. *)
Definition next_call : M nat :=
  fun s => (mkSession (current_preferences s) (stale_preferences s) (memory s)
                      (S (calls s)),
            Ok (calls s)).

(** ** The collaborators

    What the workflow is built from and does not implement: the two
    chains of the text-generation service (absent when the service is not
    configured), the vector store, the catalog's table from product URL
    to image, the product card renderer and Python's rendering of a
    number inside an f-string.
    - [preference_chain n input prefs] is the chain's reply to [input]
      with the current record [prefs], after [json.loads] and
      [UserPreferences.from_dict]; a reply that does not decode is a raise.
    - [conversation_chain n summary history question] is the reply text.
    - [vector_search n query k] is [VectorService.search] on a loaded
      store. *)
Record Services : Type := mkServices {
  preference_chain :
    option (nat -> string -> UserPreferences -> Result UserPreferences);
  conversation_chain :
    option (nat -> string -> string -> string -> Result string);
  vector_available : bool;
  vector_search : nat -> string -> Z -> Result (list Document);
  url_to_image : list (string * string);
  format_product_doc : Document -> string;
  show_number : Q -> string
}.

(** ** services/search_service.py *)

(** [SearchService.build_search_query_with_preferences]. *)
Definition build_search_query_with_preferences (user_question : string)
           (preferences : UserPreferences) : string :=
  PyStr.join " " ([user_question] ++ materials preferences ++ colors preferences
                  ++ categories preferences ++ brands preferences).

(** [doc.metadata['price'] = price]. *)
Definition set_price (doc : Document) (p : Q) : Document :=
  let m := metadata doc in
  mkDoc (page_content doc)
        (mkMeta (meta_name m) (meta_brand m) (Some (VNum p)) (meta_url m)).

(** [doc.metadata.get('url') in url_to_image]. *)
Definition in_catalog (catalog : list (string * string)) (doc : Document) : bool :=
  match meta_url (metadata doc) with
  | Some u => is_some (dict_get u catalog)
  | None => false
  end.

(** One round of the filtering loop of [search_products]. *)
Definition filter_step (catalog : list (string * string))
           (preferences : UserPreferences)
           (filtered_docs : list Document) (doc : Document) : list Document :=
  if in_catalog catalog doc && matches_preferences doc preferences then
    match py_float (get_or (meta_price (metadata doc)) (VNum 0)) with
    | inr price => filtered_docs ++ [set_price doc price]
    | inl _ => filtered_docs
    end
  else filtered_docs.

(** The sort key [float(x.metadata.get('price', 0))]. On the documents
    that pass the loop the conversion cannot fail; see [filter_loop_numeric]. *)
Definition price_key (doc : Document) : Q :=
  match py_float (get_or (meta_price (metadata doc)) (VNum 0)) with
  | inr p => p
  | inl _ => 0
  end.

(** [list.sort(key=price_key, reverse=True)]: a stable sort, documents
    of equal price keep their order. *)
Fixpoint insert_desc (x : Document) (l : list Document) : list Document :=
  match l with
  | [] => [x]
  | y :: t =>
      if Qle_bool (price_key y) (price_key x) then x :: y :: t
      else y :: insert_desc x t
  end.

Definition sort_desc (l : list Document) : list Document :=
  fold_right insert_desc [] l.

(** The slice [l[:n]] for a Python integer [n]. *)
Definition slice_to {A : Type} (n : Z) (l : list A) : list A :=
  if (n <? 0)%Z
  then firstn (Z.to_nat (Z.of_nat (length l) + n)) l
  else firstn (Z.to_nat n) l.

(** The part of [search_products] after retrieval. *)
Definition filter_and_rank (catalog : list (string * string))
           (docs : list Document) (preferences : UserPreferences)
           (max_results : Z) : list Document :=
  let filtered_docs := fold_left (filter_step catalog preferences) docs [] in
  slice_to max_results (sort_desc filtered_docs).

(** [SearchService.search_products]. *)
Definition search_products (svc : Services) (query : string)
           (preferences : UserPreferences) (max_results : Z)
  : M (list Document) :=
  if negb (vector_available svc) then ret []
  else
    let enhanced_query := build_search_query_with_preferences query preferences in
    n <- next_call ;;
    docs <- lift (vector_search svc n enhanced_query 30) ;;
    ret (filter_and_rank (url_to_image svc) docs preferences max_results).

Definition default_max_results : Z := 6.

Definition search_keywords : list string :=
  [ "show"; "find"; "search"; "look"; "recommend"; "suggest"; "want"; "need";
    "display"; "see"; "browse"; "shopping"; "buy"; "purchase"; "get me";
    "what about"; "how about"; "any"; "do you have" ].

Definition product_terms : list string :=
  [ "bag"; "handbag"; "purse"; "tote"; "backpack"; "clutch"; "wallet";
    "crossbody"; "shoulder"; "messenger"; "satchel"; "briefcase" ].

Definition refinement_terms : list string :=
  [ "leather"; "canvas"; "black"; "brown"; "cheap"; "expensive"; "small"; "large" ].

(** [SearchService.should_search_products]; falling off the end of the
    function gives [None], which the caller reads as false. *)
Definition should_search_products (user_input : string) (has_preferences : bool)
  : bool :=
  let user_input_lower := PyStr.lower user_input in
  if PyStr.any_in search_keywords user_input_lower then true
  else if has_preferences
          && (PyStr.any_in refinement_terms user_input_lower
              || (PyStr.count_words false user_input <=? 3)%nat) then true
  else if PyStr.any_in product_terms user_input_lower then true
  else false.

(** ** services/preference_service.py, the stateful part *)

(** [PreferenceService.update_preferences]. Without a preference chain
    the record is returned as it is; a raise of the chain or of the
    decoding is caught and leaves the record unchanged. *)
Definition update_preferences (svc : Services) (user_input : string)
  : M UserPreferences :=
  match preference_chain svc with
  | None =>
      s <- get_session ;;
      modify (set_stale (current_preferences s)) ;;;
      ret (current_preferences s)
  | Some chain =>
      try_except
        (s <- get_session ;;
         let cur := current_preferences s in
         modify (set_stale cur) ;;;
         n <- next_call ;;
         new_preferences <- lift (chain n user_input cur) ;;
         let new_prefs := normalize new_preferences in
         let append_mode := _analyze_intent user_input in
         modify (set_stale (_merge_preferences_stale cur new_prefs append_mode)) ;;;
         modify (set_preferences (_merge_preferences cur new_prefs append_mode)))
        (fun _ => ret tt) ;;;
      s <- get_session ;;
      ret (current_preferences s)
  end.

(** [PreferenceService.clear_preferences]. *)
Definition clear_preferences : M unit :=
  modify (fun s => set_preferences (clear (current_preferences s)) s).

(** Truth value of an optional number: [None] and zero are false. *)
Definition truthy (o : option Q) : bool :=
  match o with
  | Some q => negb (Qeq_bool q 0)
  | None => false
  end.

(** [PreferenceService.get_summary]. *)
Definition get_summary (svc : Services) (prefs : UserPreferences) : string :=
  let shown (o : option Q) := show_number svc (get_or o 0) in
  let price_part :=
    if truthy (price_min prefs) && truthy (price_max prefs)
    then [("Price: $" ++ shown (price_min prefs) ++ "-$"
           ++ shown (price_max prefs))%string]
    else if truthy (price_min prefs)
    then [("Price: Above $" ++ shown (price_min prefs))%string]
    else if truthy (price_max prefs)
    then [("Price: Under $" ++ shown (price_max prefs))%string]
    else [] in
  let part (label : string) (l : list string) :=
    if nonempty l then [(label ++ PyStr.join ", " l)%string] else [] in
  let parts :=
    price_part ++ part "Brands: " (brands prefs)
    ++ part "Categories: " (categories prefs)
    ++ part "Colors: " (colors prefs)
    ++ part "Materials: " (materials prefs) in
  if nonempty parts then PyStr.join " | " parts else "No active preferences set".

(** ** models/state.py and workflows/conversation_flow.py *)

Record BotState : Type := mkState {
  chat_history : list Message;
  question : string;
  answer : string;
  should_retrieve : bool
}.

Definition set_answer (a : string) (st : BotState) : BotState :=
  mkState (chat_history st) (question st) a (should_retrieve st).

Definition set_should_retrieve (b : bool) (st : BotState) : BotState :=
  mkState (chat_history st) (question st) (answer st) b.

Definition nl : string := String (ascii_of_nat 10) EmptyString.
Definition dq : string := String (ascii_of_nat 34) EmptyString.

Definition redirect_message : string :=
  "I'm here to help with shopping-related questions like products, prices, or bags. "
  ++ "Let me know how I can assist you with that!".

Definition cleared_message : string :=
  "Your preferences have been cleared! Feel free to set new ones.".

Definition canned_reply : string :=
  "I'm here to help you find bags and accessories! What are you looking for?".

Definition no_products_message : string :=
  "I couldn't find any products matching your criteria. Try adjusting your preferences.".

Definition search_error_message : string :=
  "Sorry, I encountered an error while searching. Please try again.".

Definition technical_difficulties_message : string :=
  "I apologize, but I'm experiencing some technical difficulties. Please try again.".

Definition product_grid (svc : Services) (docs : list Document) : string :=
  "<div style=" ++ dq
  ++ "display: flex; flex-wrap: wrap; gap: 20px; justify-content: center;"
  ++ dq ++ ">" ++ nl
  ++ String.concat "" (map (format_product_doc svc) docs) ++ nl
  ++ "</div>".

Definition updated_header (svc : Services) (prefs : UserPreferences) : string :=
  "Updated preferences to: " ++ get_summary svc prefs ++ nl
  ++ "                    " ++ nl.

(** [key] ranges over the seven keys of [to_dict]:
    [previous_prefs[key] != updated_prefs.to_dict()[key]] for some key. *)
Definition option_Q_eqb (a b : option Q) : bool :=
  match a, b with
  | Some x, Some y => Qeq_bool x y
  | None, None => true
  | _, _ => false
  end.

Definition list_string_eqb (a b : list string) : bool :=
  if list_eq_dec string_dec a b then true else false.

Definition preferences_differ (previous updated : UserPreferences) : bool :=
  negb (option_Q_eqb (price_min previous) (price_min updated))
  || negb (option_Q_eqb (price_max previous) (price_max updated))
  || negb (list_string_eqb (brands previous) (brands updated))
  || negb (list_string_eqb (categories previous) (categories updated))
  || negb (list_string_eqb (colors previous) (colors updated))
  || negb (list_string_eqb (materials previous) (materials updated))
  || negb (list_string_eqb (features previous) (features updated)).

(** [ConversationWorkflow._handle_preference_update]: the state and
    whether the turn was answered as a preference update.
    [previous_prefs] is a shallow copy, so after the update it shows
    [stale_preferences]. *)
Definition _handle_preference_update (svc : Services) (user_question : string)
           (state : BotState) : M (BotState * bool) :=
  try_except
    (updated_prefs <- update_preferences svc user_question ;;
     s <- get_session ;;
     let previous_prefs := stale_preferences s in
     if preferences_differ previous_prefs updated_prefs then
       docs <- search_products svc user_question (current_preferences s)
                               default_max_results ;;
       if nonempty docs then
         ret (set_answer (updated_header svc (current_preferences s)
                          ++ "Here are products matching your updated criteria:"
                          ++ nl ++ product_grid svc docs) state, true)
       else
         ret (set_answer (updated_header svc (current_preferences s)
                          ++ "I couldn't find any products matching these exact criteria. Try adjusting your preferences.")
                         state, true)
     else ret (state, false))
    (fun _ => ret (state, false)).

(** [ConversationWorkflow._handle_product_search]. *)
Definition _handle_product_search (svc : Services) (user_question : string)
           (state : BotState) : M BotState :=
  try_except
    (s <- get_session ;;
     docs <- search_products svc user_question (current_preferences s)
                             default_max_results ;;
     if negb (nonempty docs) then ret (set_answer no_products_message state)
     else
       ret (set_answer
              ("Here are some products that match your criteria, sorted by price (highest to lowest):"
               ++ nl ++ product_grid svc docs) state))
    (fun _ => ret (set_answer search_error_message state)).

Definition reset_phrases : list string :=
  [ "clear preferences"; "reset preferences"; "start over" ].

(** [messages[-6:] if len(messages) > 6 else messages]. *)
Definition recent_messages (messages : list Message) : list Message :=
  if (6 <? length messages)%nat then skipn (length messages - 6) messages
  else messages.

Definition show_message (msg : Message) : string :=
  match msg with
  | HumanMessage content => "User: " ++ content
  | AIMessage content => "Assistant: " ++ content
  end.

(** [ConversationWorkflow._handle_general_conversation]. *)
Definition _handle_general_conversation (svc : Services) (user_question : string)
           (state : BotState) : M BotState :=
  if PyStr.any_in reset_phrases (PyStr.lower user_question) then
    clear_preferences ;;;
    ret (set_answer cleared_message state)
  else
    match conversation_chain svc with
    | Some chain =>
        try_except
          (s <- get_session ;;
           let recent_chat_str :=
             PyStr.join nl (map show_message (recent_messages (memory s))) in
           n <- next_call ;;
           text <- lift (chain n (get_summary svc (current_preferences s))
                               recent_chat_str user_question) ;;
           ret (set_answer text state))
          (fun _ => ret (set_answer canned_reply state))
    | None => ret (set_answer canned_reply state)
    end.

(** [ConversationWorkflow._process_input_and_route], the first node. *)
Definition _process_input_and_route (svc : Services) (state : BotState)
  : M BotState :=
  let user_input := question state in
  if negb (is_relevant_to_shopping user_input) then
    ret (set_should_retrieve false (set_answer redirect_message state))
  else
    update_preferences svc user_input ;;;
    s <- get_session ;;
    ret (set_should_retrieve
           (should_search_products user_input
              (has_active_preferences (current_preferences s)))
           state).

(** [ConversationWorkflow._execute_search_or_respond], the second node. *)
Definition _execute_search_or_respond (svc : Services) (state : BotState)
  : M BotState :=
  let user_question := question state in
  r <- _handle_preference_update svc user_question state ;;
  let '(state, preference_updated) := r in
  if preference_updated then ret state
  else
    state <- (if should_retrieve state
              then _handle_product_search svc user_question state
              else _handle_general_conversation svc user_question state) ;;
    modify (add_message (HumanMessage (question state))) ;;;
    modify (add_message (AIMessage (answer state))) ;;;
    ret state.

(** The compiled graph of [_build_workflow]: entry point
    [process_and_route], one edge to [search_or_respond], which is the
    finish point. *)
Definition agent (svc : Services) (state : BotState) : M BotState :=
  state <- _process_input_and_route svc state ;;
  _execute_search_or_respond svc state.

(** [ConversationWorkflow.process_message] around a graph [invoke]. *)
Definition process_message_with (invoke : BotState -> M BotState)
           (user_input : string) : M string :=
  s <- get_session ;;
  let state := mkState (memory s) user_input "" false in
  try_except
    (result <- invoke state ;; ret (answer result))
    (fun _ => ret technical_difficulties_message).

(** [ConversationWorkflow.process_message]. *)
Definition process_message (svc : Services) (user_input : string) : M string :=
  process_message_with (agent svc) user_input.

(** * The specification's vocabulary *)

(** Replace mode on one field, in the words of the specification: a
    non-empty delta is the new value, an empty delta leaves the field. *)
Definition replaced (old delta result : list string) : Prop :=
  (delta <> [] -> result = delta) /\ (delta = [] -> result = old).

(** The price rule on one bound: a value in the delta is the new bound,
    a missing value leaves the bound. *)
Definition overwritten (old delta result : option Q) : Prop :=
  (forall v, delta = Some v -> result = Some v) /\ (delta = None -> result = old).

(** The five list-valued fields of a record, in the order of the
    dataclass. *)
Definition field_lists (p : UserPreferences) : list (list string) :=
  [ brands p; categories p; colors p; materials p; features p ].

(** In how many of the five fields the string [x] occurs. *)
Definition occurrences (x : string) (p : UserPreferences) : nat :=
  length (filter (PyStr.mem x) (field_lists p)).

(** The invariant of the data model: no string in more than one field,
    and no "tote" among the features. *)
Definition fields_disjoint (p : UserPreferences) : Prop :=
  (forall x, (occurrences x p <= 1)%nat) /\ ~ In "tote" (features p).

(** The resolution of "tote" as the specification words it: "tote bag"
    when the vocabulary has it, nothing otherwise. *)
Definition tote_resolution (vocab : list string) : list string :=
  if PyStr.mem "tote bag" vocab then ["tote bag"] else [].

(** [needle] occurs in [hay] when letter case is ignored. *)
Definition ci_substring (needle hay : string) : bool :=
  PyStr.contains (PyStr.lower needle) (PyStr.lower hay).

(** The price of a candidate when it parses to a number; a candidate
    without a price entry counts as priced 0, as [get('price', 0)] has it. *)
Definition parsed_price (doc : Document) : option Q :=
  match py_float (get_or (meta_price (metadata doc)) (VNum 0)) with
  | inr p => Some p
  | inl _ => None
  end.

(** [p] lies in [price_min, price_max], open on a bound that is unset. *)
Definition within_bounds (p : Q) (preferences : UserPreferences) : bool :=
  match price_min preferences with Some mn => Qle_bool mn p | None => true end
  && match price_max preferences with Some mx => Qle_bool p mx | None => true end.

(** The name and content text of a candidate. *)
Definition name_and_content (doc : Document) : string :=
  (get_or (meta_name (metadata doc)) "" ++ " " ++ page_content doc)%string.

(** A constraint on a list-valued field holds when the field is unset or
    one of its entries satisfies [test]. *)
Definition unset_or_some (l : list string) (test : string -> bool) : bool :=
  negb (nonempty l) || existsb test l.

(** The hard filter in the words of the specification. *)
Definition kept (catalog : list (string * string)) (preferences : UserPreferences)
           (doc : Document) : bool :=
  in_catalog catalog doc
  && match parsed_price doc with
     | Some p => within_bounds p preferences
     | None => false
     end
  && unset_or_some (brands preferences)
       (fun b => ci_substring b (get_or (meta_brand (metadata doc)) ""))
  && unset_or_some (colors preferences)
       (fun c => ci_substring c (name_and_content doc))
  && unset_or_some (categories preferences)
       (fun c => ci_substring c (name_and_content doc)).

(** A candidate as the search returns it: its price entry is the parsed
    number. *)
Definition normalized (doc : Document) : Document := set_price doc (price_key doc).


(** A catalog entry priced [p] with every other field matching. *)
Definition priced (p : Q) : Document :=
  mkDoc "black leather tote" (mkMeta (Some "Tote") (Some "Guess") (Some (VNum p))
                                     (Some "https://shop.example/tote")).

Definition one_item_catalog : list (string * string) :=
  [ ("https://shop.example/tote", "tote.jpg") ].


(** The assistant with no text-generation service and no vector store. *)
Definition offline_services : Services :=
  mkServices None None false (fun _ _ _ => Ok []) [] (fun _ => "") (fun _ => "").

(** A loaded store whose search raises. *)
Definition broken_search_services : Services :=
  mkServices None None true
             (fun _ _ _ => Raise (CollaboratorError "store unreachable"))
             one_item_catalog (fun _ => "") (fun _ => "").

(** The session at the start of a conversation. *)
Definition fresh_session : Session :=
  mkSession empty_preferences empty_preferences [] 0.

(** A session in which the user has settled on black. *)
Definition black_session : Session :=
  mkSession (mkPrefs None None [] [] ["black"] [] []) empty_preferences [] 0.

(** A text-generation service whose preference chain always claims the
    color red and nothing else. *)
Definition red_services : Services :=
  mkServices (Some (fun _ _ _ => Ok (mkPrefs None None [] [] ["red"] [] [])))
             None false (fun _ _ _ => Ok []) [] (fun _ => "") (fun _ => "").

(** A computation that returns from every session. *)
Definition never_raises {A : Type} (m : M A) : Prop :=
  forall s, exists s' a, m s = (s', Ok a).

(** A statement about each of the five list-valued fields. *)
Definition every_field (P : (UserPreferences -> list string) -> Prop) : Prop :=
  P brands /\ P categories /\ P colors /\ P materials /\ P features.

(** No list-valued field of the record holds an entry twice. *)
Definition duplicate_free (p : UserPreferences) : Prop :=
  every_field (fun f => NoDup (f p)).

(** The delta that claims nothing. *)
Definition empty_delta : UserPreferences := mkPrefs None None [] [] [] [] [].


(** The computation leaves the observation [f] of the session as it was,
    whether it returns or raises. *)
Definition keeps {A X : Type} (f : Session -> X) (m : M A) : Prop :=
  forall s, f (fst (m s)) = f s.

(** Whatever the computation returns satisfies [R]. *)
Definition returns_with {A : Type} (m : M A) (R : A -> Prop) : Prop :=
  forall s a, snd (m s) = Ok a -> R a.

(** A text-generation service whose preference chain raises. *)
Definition broken_extraction_services : Services :=
  mkServices (Some (fun _ _ _ => Raise (CollaboratorError "model timeout")))
             None false (fun _ _ _ => Ok []) [] (fun _ => "") (fun _ => "").

(** ** ui/gradio_interface.py *)

(** The state behind the chat window: the list [chat_history_ui] of
    (role, text) entries and the session of the workflow it drives. *)
Record Interface : Type := mkInterface {
  chat_history_ui : list (string * string);
  workflow_session : Session
}.

(** The list comprehension that [chat_interface] returns: the texts of
    entries 0 and 1, 2 and 3, and so on. An odd number of entries makes
    the last index fail, which is [None] here. *)
Fixpoint transcript (ui : list (string * string)) : option (list (string * string)) :=
  match ui with
  | [] => Some []
  | [_] => None
  | a :: b :: rest =>
      match transcript rest with
      | Some t => Some ((snd a, snd b) :: t)
      | None => None
      end
  end.

Definition farewell_message : string := "Have a great day!".

(** [user_input.strip().lower() in ["exit", "quit"]]. *)
Definition is_exit (user_input : string) : bool :=
  PyStr.mem (PyStr.lower (PyStr.strip user_input)) ["exit"; "quit"].

(** [GradioInterface.chat_interface]: the interface afterwards and the
    pairs it returns. *)
Definition chat_interface (svc : Services) (user_input : string)
           (app : Interface) : Interface * option (list (string * string)) :=
  if is_exit user_input then
    let ui := chat_history_ui app
              ++ [("user", user_input); ("assistant", farewell_message)] in
    (mkInterface ui (workflow_session app), transcript ui)
  else
    let '(s', r) := process_message svc user_input (workflow_session app) in
    let reply :=
      match r with
      | Ok result => result
      | Raise _ => technical_difficulties_message
      end in
    let ui := chat_history_ui app
              ++ [("user", user_input); ("assistant", reply)] in
    (mkInterface ui s', transcript ui).

(** [ConversationWorkflow.clear_memory]. *)
Definition clear_memory : M unit :=
  modify (fun s => mkSession (current_preferences s) (stale_preferences s) []
                             (calls s)).

(** [GradioInterface.clear_chat]; it returns the empty list. *)
Definition clear_chat (app : Interface) : Interface * list (string * string) :=
  let s1 := fst (clear_preferences (workflow_session app)) in
  let s2 := fst (clear_memory s1) in
  (mkInterface [] s2, []).

(** Two records that agree on the price bounds, brands, colors and
    categories; materials and features may differ. *)
Definition same_hard_constraints (p p' : UserPreferences) : Prop :=
  price_min p = price_min p' /\ price_max p = price_max p'
  /\ brands p = brands p' /\ colors p = colors p'
  /\ categories p = categories p'.

(** A text-generation service whose conversation chain raises. *)
Definition broken_reply_services : Services :=
  mkServices None (Some (fun _ _ _ _ => Raise (CollaboratorError "model timeout")))
             false (fun _ _ _ => Ok []) [] (fun _ => "") (fun _ => "").

(** * Properties *)

(** ** Membership and [dict.fromkeys] *)

Section Dedup.

Lemma mem_In (x : string) (l : list string) :
  PyStr.mem x l = true <-> In x l.
Proof.
  unfold PyStr.mem. rewrite existsb_exists. split.
  - intros [y [Hy Heq]]. apply String.eqb_eq in Heq. now subst.
  - intros H. exists x. split; [assumption | apply String.eqb_refl].
Qed.

Lemma mem_false (x : string) (l : list string) :
  PyStr.mem x l = false <-> ~ In x l.
Proof.
  rewrite <- mem_In. destruct (PyStr.mem x l); split; congruence.
Qed.

Lemma mem_app (x : string) (l1 l2 : list string) :
  PyStr.mem x (l1 ++ l2) = PyStr.mem x l1 || PyStr.mem x l2.
Proof. unfold PyStr.mem. apply existsb_app. Qed.

(** The loop of [dict.fromkeys] started from the keys [acc] adds, in
    order, the entries not seen before. *)
Lemma fold_dict_add_first_seen (l acc seen : list string) :
  (forall x, PyStr.mem x acc = PyStr.mem x seen) ->
  fold_left dict_add l acc = acc ++ first_seen seen l.
Proof.
  revert acc seen. induction l as [|a l IH]; intros acc seen Hsame; simpl.
  - now rewrite app_nil_r.
  - unfold dict_add at 2. rewrite Hsame.
    destruct (PyStr.mem a seen) eqn:Ha.
    + now apply IH.
    + rewrite (IH (acc ++ [a]) (a :: seen)).
      * now rewrite <- app_assoc.
      * intros x. rewrite mem_app, Hsame. simpl.
        destruct (String.eqb x a); simpl;
          [ apply orb_true_r | apply orb_false_r ].
Qed.

Lemma dict_fromkeys_first_seen (l : list string) :
  dict_fromkeys l = first_seen [] l.
Proof.
  unfold dict_fromkeys. now rewrite (fold_dict_add_first_seen l [] []).
Qed.

Lemma first_seen_In (l seen : list string) (x : string) :
  In x (first_seen seen l) <-> In x l /\ ~ In x seen.
Proof.
  revert seen. induction l as [|a l IH]; intros seen; simpl.
  - tauto.
  - destruct (PyStr.mem a seen) eqn:Ha.
    + apply mem_In in Ha. rewrite IH. split.
      * tauto.
      * intros [[->|H] Hn]; tauto.
    + apply mem_false in Ha. simpl. rewrite IH. simpl. split.
      * intros [->|[H Hn]]; tauto.
      * intros [[->|H] Hn]; [tauto|].
        destruct (string_dec a x); [tauto|]. right. tauto.
Qed.

Lemma first_seen_NoDup (l seen : list string) : NoDup (first_seen seen l).
Proof.
  revert seen. induction l as [|a l IH]; intros seen; simpl.
  - constructor.
  - destruct (PyStr.mem a seen); [apply IH|].
    constructor; [|apply IH].
    rewrite first_seen_In. simpl. tauto.
Qed.

Lemma dict_fromkeys_In (l : list string) (x : string) :
  In x (dict_fromkeys l) <-> In x l.
Proof. rewrite dict_fromkeys_first_seen, first_seen_In. simpl. tauto. Qed.

Lemma dict_fromkeys_NoDup (l : list string) : NoDup (dict_fromkeys l).
Proof. rewrite dict_fromkeys_first_seen. apply first_seen_NoDup. Qed.

(** Keys that are all present already leave the dictionary as it is. *)
Lemma fold_dict_add_absorb (l acc : list string) :
  (forall x, In x l -> In x acc) -> fold_left dict_add l acc = acc.
Proof.
  induction l as [|a l IH]; intros Hin; simpl; [reflexivity|].
  unfold dict_add at 2.
  assert (Ha : PyStr.mem a acc = true) by (apply mem_In, Hin; now left).
  rewrite Ha. apply IH. intros x Hx. apply Hin. now right.
Qed.

(** A list without repetition goes through [dict.fromkeys] unchanged. *)
Lemma fold_dict_add_NoDup (l acc : list string) :
  NoDup (acc ++ l) -> fold_left dict_add l acc = acc ++ l.
Proof.
  revert acc. induction l as [|a l IH]; intros acc Hnd; simpl.
  - now rewrite app_nil_r.
  - unfold dict_add at 2.
    assert (Ha : PyStr.mem a acc = false).
    { apply mem_false. intros Hin. apply NoDup_remove_2 in Hnd.
      apply Hnd, in_or_app. now left. }
    rewrite Ha, IH; rewrite <- app_assoc; [reflexivity | exact Hnd].
Qed.

Lemma dict_fromkeys_fixed (l : list string) :
  NoDup l -> dict_fromkeys l = l.
Proof. intros H. unfold dict_fromkeys. now rewrite fold_dict_add_NoDup. Qed.

(** Appending once more what was appended before changes nothing. *)
Lemma dict_fromkeys_again (old new : list string) :
  dict_fromkeys (dict_fromkeys (old ++ new) ++ new) = dict_fromkeys (old ++ new).
Proof.
  unfold dict_fromkeys at 1. rewrite fold_left_app.
  fold (dict_fromkeys (dict_fromkeys (old ++ new))).
  rewrite (dict_fromkeys_fixed _ (dict_fromkeys_NoDup _)).
  apply fold_dict_add_absorb. intros x Hx.
  apply dict_fromkeys_In, in_or_app. now right.
Qed.

End Dedup.

(** ** The merger *)

Lemma replaced_intro (old delta : list string) :
  replaced old delta (if nonempty delta then delta else old).
Proof.
  destruct delta; simpl; split; congruence.
Qed.

Lemma overwritten_intro (old delta : option Q) :
  overwritten old delta (match delta with Some v => Some v | None => old end).
Proof.
  destruct delta; split; congruence.
Qed.

(** The merged lists of append mode hold no entry twice and hold the
    entries of both sides. *)
Lemma append_merge_members (old delta : list string) (x : string) :
  NoDup (dict_fromkeys (old ++ delta))
  /\ (In x (dict_fromkeys (old ++ delta)) <-> In x old \/ In x delta).
Proof.
  split; [apply dict_fromkeys_NoDup|].
  rewrite dict_fromkeys_In. apply in_app_iff.
Qed.

(** C5. In append mode every list-valued field of the merged record is
    the concatenation of the existing entries and the delta's entries with
    every entry kept at its first occurrence only; existing colors
    [black, red] merged with delta colors [red, blue] give
    [black, red, blue]. *)
Theorem append_merge_first_seen :
  (forall (cur delta : UserPreferences),
      let r := _merge_preferences cur delta true in
      brands r = first_seen [] (brands cur ++ brands delta)
      /\ categories r = first_seen [] (categories cur ++ categories delta)
      /\ colors r = first_seen [] (colors cur ++ colors delta)
      /\ materials r = first_seen [] (materials cur ++ materials delta)
      /\ features r = first_seen [] (features cur ++ features delta))
  /\ colors (_merge_preferences
               (mkPrefs None None [] [] ["black"; "red"] [] [])
               (mkPrefs None None [] [] ["red"; "blue"] [] []) true)
     = ["black"; "red"; "blue"].
Proof.
  split; [|reflexivity].
  intros cur delta r. subst r. simpl.
  repeat split; apply dict_fromkeys_first_seen.
Qed.

(** C6. In replace mode every list-valued field is afterwards the
    delta's value when that value is not empty, and is unchanged when the
    delta's value is empty. *)
Theorem replace_merge_frame :
  forall (cur delta : UserPreferences),
    let r := _merge_preferences cur delta false in
    replaced (brands cur) (brands delta) (brands r)
    /\ replaced (categories cur) (categories delta) (categories r)
    /\ replaced (colors cur) (colors delta) (colors r)
    /\ replaced (materials cur) (materials delta) (materials r)
    /\ replaced (features cur) (features delta) (features r).
Proof.
  intros cur delta r. subst r. simpl.
  repeat apply conj; apply replaced_intro.
Qed.

(** C7. In append mode and in replace mode alike, a price bound present
    in the delta becomes the record's bound and a bound absent from the
    delta leaves the record's bound as it was; an existing price_max of
    200 merged in append mode with a delta price_max of 100 gives 100. *)
Theorem price_overwrite_any_mode :
  (forall (cur delta : UserPreferences) (append_mode : bool),
      let r := _merge_preferences cur delta append_mode in
      overwritten (price_min cur) (price_min delta) (price_min r)
      /\ overwritten (price_max cur) (price_max delta) (price_max r))
  /\ price_max (_merge_preferences
                  (mkPrefs None (Some (200 # 1)) [] [] [] [] [])
                  (mkPrefs None (Some (100 # 1)) [] [] [] [] []) true)
     = Some (100 # 1).
Proof.
  split; [|reflexivity].
  intros cur delta append_mode r. subst r.
  destruct append_mode; simpl; split; apply overwritten_intro.
Qed.

(** C8. Merging the same delta in the same mode a second time gives the
    record that the first merge gave. *)
Theorem merge_idempotent :
  forall (cur delta : UserPreferences) (append_mode : bool),
    _merge_preferences (_merge_preferences cur delta append_mode) delta append_mode
    = _merge_preferences cur delta append_mode.
Proof.
  intros cur delta [|]; unfold _merge_preferences; simpl.
  - rewrite !dict_fromkeys_again.
    destruct (price_min delta), (price_max delta); reflexivity.
  - destruct (price_min delta), (price_max delta),
      (brands delta), (categories delta), (colors delta),
      (materials delta), (features delta); reflexivity.
Qed.

(** ** The normalizer *)

(** A token reaches [features_to_add] only when it is outside the
    vocabulary, has no correction and is not "tote". *)
Lemma rejected_category (vocab cs : list string) (x : string) :
  In x (snd (validate_categories_in vocab cs)) ->
  PyStr.mem x vocab = false
  /\ dict_get x category_corrections = None
  /\ x <> "tote".
Proof.
  induction cs as [|c rest IH]; [intros []|].
  change (validate_categories_in vocab (c :: rest))
    with (let category := PyStr.strip (PyStr.lower c) in
          let '(valid, feats) := validate_categories_in vocab rest in
          if PyStr.mem category vocab then (category :: valid, feats)
          else
            match dict_get category category_corrections with
            | Some corrected =>
                if PyStr.mem corrected vocab then (corrected :: valid, feats)
                else (valid, feats)
            | None =>
                if PyStr.mem (category ++ " bag")%string vocab
                then ((category ++ " bag")%string :: valid, feats)
                else if negb (String.eqb category "tote")
                     then (valid, category :: feats)
                     else (valid, feats)
            end).
  cbv zeta.
  destruct (validate_categories_in vocab rest) as [valid feats].
  cbn [snd] in IH.
  generalize (PyStr.strip (PyStr.lower c)). intros category.
  destruct (PyStr.mem category vocab) eqn:Hmem; [exact IH|].
  destruct (dict_get category category_corrections) as [corrected|] eqn:Hcorr.
  - destruct (PyStr.mem corrected vocab); exact IH.
  - destruct (PyStr.mem (category ++ " bag") vocab); [exact IH|].
    destruct (String.eqb category "tote") eqn:Htote; [exact IH|].
    cbn [negb snd]. intros [<-|Hin]; [|now apply IH].
    apply String.eqb_neq in Htote. auto.
Qed.

Lemma tote_not_rejected (vocab cs : list string) :
  ~ In "tote" (snd (validate_categories_in vocab cs)).
Proof.
  intros H. apply rejected_category in H. tauto.
Qed.

(** C4, on the code. "cross-body" is normalized to "crossbody" in the
    categories and nothing goes to the features, and for every input list
    neither "tote" nor "cross-body" is among the features to add. But the
    vocabulary of the code lists "tote" and has no "tote bag": the token
    "tote" is kept as "tote", neither resolved to "tote bag" nor omitted,
    and the name "tote bag" itself is rejected into the features. Under a
    vocabulary without "tote" the resolution is the one of the claim. *)
Theorem category_normalization :
  _validate_categories ["cross-body"] = (["crossbody"], [])
  /\ (forall cs : list string,
        ~ In "tote" (snd (_validate_categories cs))
        /\ ~ In "cross-body" (snd (_validate_categories cs)))
  /\ _validate_categories ["tote"] = (["tote"], [])
  /\ fst (_validate_categories ["tote"]) <> tote_resolution Settings.BAG_CATEGORIES
  /\ _validate_categories ["tote bag"] = ([], ["tote bag"])
  /\ (forall vocab : list string,
        validate_categories_in vocab ["tote"]
        = (if PyStr.mem "tote" vocab then ["tote"] else tote_resolution vocab, [])).
Proof.
  split; [reflexivity|]. split; [|repeat split; try reflexivity; try discriminate].
  - intros cs. split.
    + apply tote_not_rejected.
    + intros H. apply rejected_category in H.
      destruct H as (_ & H & _). discriminate H.
  - intros vocab. unfold tote_resolution, validate_categories_in.
    change (PyStr.strip (PyStr.lower "tote")) with "tote".
    destruct (PyStr.mem "tote" vocab); [reflexivity|].
    change (dict_get "tote" category_corrections) with (Some "tote bag").
    cbv beta iota.
    destruct (PyStr.mem "tote bag" vocab); reflexivity.
Qed.

(** The features of the normalized delta are the claimed features
    followed by the rejected categories. *)
Lemma normalize_features (raw : UserPreferences) :
  features (normalize raw)
  = if nonempty (categories raw)
    then features raw ++ snd (_validate_categories (categories raw))
    else features raw.
Proof.
  unfold normalize. destruct (nonempty (categories raw)); [|reflexivity].
  destruct (_validate_categories (categories raw)); reflexivity.
Qed.

(** C2, the claim on the code: a delta that claims "leather" both as a
    category and as a material and "tote" as a feature is merged into the
    empty record with "leather" in two fields and "tote" in the features. *)
Lemma fields_overlap_after_merge :
  let r := _validate_and_merge empty_preferences
             (mkPrefs None None [] ["leather"] [] ["leather"] ["tote"])
             "leather tote" in
  ~ fields_disjoint r
  /\ occurrences "leather" r = 2%nat
  /\ In "tote" (features r).
Proof.
  cbv zeta. split; [|split].
  - intros [_ H]. apply H. vm_compute. tauto.
  - reflexivity.
  - vm_compute. tauto.
Qed.

(** C2, amended. The merge does not keep the fields disjoint; what it
    keeps is that "tote" is never brought into the features by the
    validation of categories: when neither the record's features nor the
    delta's claimed features hold "tote", the merged features do not. *)
Theorem tote_never_introduced :
  forall (cur raw : UserPreferences) (user_input : string),
    ~ In "tote" (features cur) ->
    ~ In "tote" (features raw) ->
    ~ In "tote" (features (_validate_and_merge cur raw user_input)).
Proof.
  intros cur raw user_input Hcur Hraw.
  assert (Hnorm : ~ In "tote" (features (normalize raw))).
  { rewrite normalize_features.
    destruct (nonempty (categories raw)); [|exact Hraw].
    intros H. apply in_app_or in H. destruct H as [H|H]; [tauto|].
    now apply tote_not_rejected in H. }
  unfold _validate_and_merge.
  destruct (_analyze_intent user_input); simpl.
  - rewrite dict_fromkeys_In. intros H. apply in_app_or in H. tauto.
  - destruct (features (normalize raw)); simpl; assumption.
Qed.

Lemma tote_never_introduced_witness :
  ~ In "tote" (features (_validate_and_merge
                           (mkPrefs None None [] [] [] [] ["zip"])
                           (mkPrefs None None [] ["Tote"; "sling"] [] [] ["roomy"])
                           "also a tote")).
Proof.
  apply (tote_never_introduced
           (mkPrefs None None [] [] [] [] ["zip"])
           (mkPrefs None None [] ["Tote"; "sling"] [] [] ["roomy"])
           "also a tote").
  - simpl. intros [H|[]]. discriminate H.
  - simpl. intros [H|[]]. discriminate H.
Defined.

(** ** The candidate filter and ranker *)

Section Ranker.

Lemma lower_append (a b : string) :
  PyStr.lower (a ++ b) = (PyStr.lower a ++ PyStr.lower b)%string.
Proof.
  induction a as [|c a IH]; simpl; [reflexivity | now rewrite IH].
Qed.

(** [float()] reads no character outside the decimal literal. *)
Lemma step_other (s : PyFloat.scan) : PyFloat.step s PyFloat.COther = None.
Proof. unfold PyFloat.step. destruct (PyFloat.ph s); reflexivity. Qed.

Lemma run_keeps (c : ascii) (str : string) (s s' : PyFloat.scan) :
  PyFloat.classify c = PyFloat.COther ->
  PyFloat.run s str = Some s' ->
  PyStr.remove_char c str = str.
Proof.
  intros Hc. revert s.
  induction str as [|d t IH]; intros s Hrun; simpl in *; [reflexivity|].
  destruct (Ascii.eqb c d) eqn:Hcd.
  - apply Ascii.eqb_eq in Hcd. subst d.
    rewrite Hc, step_other in Hrun. discriminate.
  - destruct (PyFloat.step s (PyFloat.classify d)) as [s1|]; [|discriminate].
    f_equal. now apply (IH s1).
Qed.

Lemma float_without_symbols (str : string) (q : Q) :
  PyFloat.of_string str = Some q ->
  PyStr.remove_char "," (PyStr.remove_char "$" str) = str.
Proof.
  unfold PyFloat.of_string. intros H.
  destruct (PyFloat.run PyFloat.scan0 str) as [s'|] eqn:Hrun; [|discriminate].
  rewrite (run_keeps "$" str _ _ eq_refl Hrun).
  apply (run_keeps "," str _ _ eq_refl Hrun).
Qed.

Lemma bounds_test (p : Q) (prefs : UserPreferences) :
  (if match price_max prefs with
      | Some mx => Qgt_bool p mx
      | None => false
      end then false
   else if match price_min prefs with
           | Some mn => Qlt_bool p mn
           | None => false
           end then false
   else true) = within_bounds p prefs.
Proof.
  unfold within_bounds, Qgt_bool, Qlt_bool.
  destruct (price_min prefs) as [mn|], (price_max prefs) as [mx|]; simpl;
    try reflexivity.
  - destruct (Qle_bool p mx), (Qle_bool mn p); reflexivity.
  - destruct (Qle_bool mn p); reflexivity.
  - destruct (Qle_bool p mx); reflexivity.
Qed.

Lemma within_unbounded (p : Q) (prefs : UserPreferences) :
  is_some (price_min prefs) || is_some (price_max prefs) = false ->
  within_bounds p prefs = true.
Proof.
  unfold within_bounds.
  destruct (price_min prefs), (price_max prefs); simpl; congruence.
Qed.

(** When the price parses, the price test of [matches_preferences] is
    the test of the bounds. *)
Lemma price_ok_parsed (doc : Document) (prefs : UserPreferences) (p : Q) :
  parsed_price doc = Some p ->
  price_ok (metadata doc) prefs = within_bounds p prefs.
Proof.
  unfold parsed_price, price_ok. intros Hp. cbv zeta.
  destruct (is_some (price_min prefs) || is_some (price_max prefs)) eqn:Hset;
    [|symmetry; now apply within_unbounded].
  destruct (get_or (meta_price (metadata doc)) (VNum 0)) as [str|q|];
    simpl in Hp |- *.
  - destruct (PyFloat.of_string str) as [q|] eqn:Hs; [|discriminate].
    injection Hp as ->.
    rewrite (float_without_symbols str p Hs), Hs. apply bounds_test.
  - injection Hp as ->. apply bounds_test.
  - discriminate.
Qed.

Lemma guard_form (set found rest : bool) :
  (if set && negb found then false else rest) = (negb set || found) && rest.
Proof. destruct set, found; reflexivity. Qed.

(** [matches_preferences] on a candidate whose price parses. *)
Lemma matches_parsed (doc : Document) (prefs : UserPreferences) (p : Q) :
  parsed_price doc = Some p ->
  matches_preferences doc prefs
  = within_bounds p prefs
    && unset_or_some (brands prefs)
         (fun b => ci_substring b (get_or (meta_brand (metadata doc)) ""))
    && unset_or_some (colors prefs)
         (fun c => ci_substring c (name_and_content doc))
    && unset_or_some (categories prefs)
         (fun c => ci_substring c (name_and_content doc)).
Proof.
  intros Hp. unfold matches_preferences, unset_or_some, ci_substring.
  cbv zeta. rewrite (price_ok_parsed doc prefs p Hp), !guard_form.
  unfold name_and_content. rewrite !lower_append.
  change (PyStr.lower " ") with " ".
  destruct (within_bounds p prefs); [|reflexivity].
  cbn [negb andb]. now rewrite andb_true_r, !andb_assoc.
Qed.

(** One round of the loop appends the candidate exactly when the
    specification keeps it. *)
Lemma filter_step_kept (catalog : list (string * string))
      (prefs : UserPreferences) (acc : list Document) (doc : Document) :
  filter_step catalog prefs acc doc
  = acc ++ (if kept catalog prefs doc then [normalized doc] else []).
Proof.
  unfold filter_step, kept, normalized, price_key.
  destruct (parsed_price doc) as [p|] eqn:Hp.
  - rewrite (matches_parsed doc prefs p Hp).
    unfold parsed_price in Hp.
    destruct (py_float (get_or (meta_price (metadata doc)) (VNum 0)));
      [discriminate|].
    injection Hp as ->.
    rewrite <- !andb_assoc.
    destruct (in_catalog catalog doc && _); [reflexivity|].
    now rewrite app_nil_r.
  - unfold parsed_price in Hp.
    destruct (py_float (get_or (meta_price (metadata doc)) (VNum 0)));
      [|discriminate].
    rewrite andb_false_r. cbn [andb].
    destruct (in_catalog catalog doc && _); now rewrite app_nil_r.
Qed.

Lemma filter_loop_kept (catalog : list (string * string))
      (prefs : UserPreferences) (docs acc : list Document) :
  fold_left (filter_step catalog prefs) docs acc
  = acc ++ map normalized (filter (kept catalog prefs) docs).
Proof.
  revert acc. induction docs as [|d docs IH]; intros acc; simpl.
  - now rewrite app_nil_r.
  - rewrite IH, filter_step_kept, <- app_assoc.
    now destruct (kept catalog prefs d).
Qed.

Lemma price_key_normalized (doc : Document) :
  price_key (normalized doc) = price_key doc.
Proof. reflexivity. Qed.

(** Every document that leaves the loop carries a number as its price,
    so the sort key of [search_products] is defined on it. *)
Lemma filter_loop_numeric (catalog : list (string * string))
      (prefs : UserPreferences) (docs : list Document) :
  Forall (fun d => py_float (get_or (meta_price (metadata d)) (VNum 0))
                   = inr (price_key d))
         (fold_left (filter_step catalog prefs) docs []).
Proof.
  rewrite filter_loop_kept. simpl. apply Forall_forall. intros d Hd.
  apply in_map_iff in Hd. destruct Hd as [d0 [<- _]]. reflexivity.
Qed.







End Ranker.



(** ** The turn pipeline *)

Lemma preferences_same (p : UserPreferences) : preferences_differ p p = false.
Proof.
  unfold preferences_differ, option_Q_eqb, list_string_eqb.
  destruct (price_min p), (price_max p);
    repeat match goal with
           | |- context [list_eq_dec ?d ?a ?a] =>
               destruct (list_eq_dec d a a); [|congruence]
           | |- context [Qeq_bool ?a ?a] =>
               replace (Qeq_bool a a) with true
                 by (symmetry; apply Qeq_bool_iff; reflexivity)
           end; reflexivity.
Qed.

Section Pipeline.

Lemma never_raises_ret {A : Type} (a : A) : never_raises (ret a).
Proof. intros s. now exists s, a. Qed.

Lemma never_raises_bind {A B : Type} (m : M A) (k : A -> M B) :
  never_raises m -> (forall a, never_raises (k a)) -> never_raises (bind m k).
Proof.
  intros Hm Hk s. unfold bind.
  destruct (Hm s) as (s1 & a & ->). apply Hk.
Qed.

(** A handler that returns makes the whole [try] return, whatever the
    body does. *)
Lemma never_raises_try {A : Type} (m : M A) (h : Exn -> M A) :
  (forall e, never_raises (h e)) -> never_raises (try_except m h).
Proof.
  intros Hh s. unfold try_except.
  destruct (m s) as [s1 [a|e]]; [now exists s1, a | apply Hh].
Qed.

Lemma never_raises_modify (f : Session -> Session) : never_raises (modify f).
Proof. intros s. now exists (f s), tt. Qed.

Lemma never_raises_get : never_raises get_session.
Proof. intros s. now exists s, s. Qed.

Lemma update_preferences_returns (svc : Services) (user_input : string) :
  never_raises (update_preferences svc user_input).
Proof.
  unfold update_preferences. destruct (preference_chain svc) as [chain|].
  - apply never_raises_bind.
    + apply never_raises_try. intros e. apply never_raises_ret.
    + intros _. apply never_raises_bind; [apply never_raises_get|].
      intros s. apply never_raises_ret.
  - apply never_raises_bind; [apply never_raises_get|]. intros s.
    apply never_raises_bind; [apply never_raises_modify|]. intros _.
    apply never_raises_ret.
Qed.

Lemma handle_preference_update_returns (svc : Services) (q : string)
      (st : BotState) :
  never_raises (_handle_preference_update svc q st).
Proof. apply never_raises_try. intros e. apply never_raises_ret. Qed.

Lemma handle_product_search_returns (svc : Services) (q : string)
      (st : BotState) :
  never_raises (_handle_product_search svc q st).
Proof. apply never_raises_try. intros e. apply never_raises_ret. Qed.

Lemma handle_general_conversation_returns (svc : Services) (q : string)
      (st : BotState) :
  never_raises (_handle_general_conversation svc q st).
Proof.
  unfold _handle_general_conversation.
  destruct (PyStr.any_in reset_phrases (PyStr.lower q)).
  - apply never_raises_bind; [apply never_raises_modify|].
    intros _. apply never_raises_ret.
  - destruct (conversation_chain svc).
    + apply never_raises_try. intros e. apply never_raises_ret.
    + apply never_raises_ret.
Qed.

(** Every raise of a collaborator is caught inside the two nodes. *)
Lemma agent_returns (svc : Services) (st : BotState) :
  never_raises (agent svc st).
Proof.
  unfold agent. apply never_raises_bind.
  - unfold _process_input_and_route.
    destruct (negb (is_relevant_to_shopping (question st)));
      [apply never_raises_ret|].
    apply never_raises_bind; [apply update_preferences_returns|]. intros _.
    apply never_raises_bind; [apply never_raises_get|]. intros s.
    apply never_raises_ret.
  - intros st1. unfold _execute_search_or_respond.
    apply never_raises_bind; [apply handle_preference_update_returns|].
    intros [st2 [|]]; [apply never_raises_ret|].
    apply never_raises_bind.
    + destruct (should_retrieve st2);
        [apply handle_product_search_returns
        |apply handle_general_conversation_returns].
    + intros st3.
      apply never_raises_bind; [apply never_raises_modify|]. intros _.
      apply never_raises_bind; [apply never_raises_modify|]. intros _.
      apply never_raises_ret.
Qed.

(** The second node when neither chain of the text-generation service
    exists and the first node did not ask for retrieval. *)
Lemma respond_without_chains (svc : Services) (st : BotState) (s : Session) :
  preference_chain svc = None ->
  conversation_chain svc = None ->
  should_retrieve st = false ->
  PyStr.any_in reset_phrases (PyStr.lower (question st)) = false ->
  _execute_search_or_respond svc st s
  = (mkSession (current_preferences s) (current_preferences s)
               (memory s ++ [HumanMessage (question st); AIMessage canned_reply])
               (calls s),
     Ok (set_answer canned_reply st)).
Proof.
  intros Hpref Hconv Hret Hreset.
  unfold _execute_search_or_respond, _handle_preference_update,
    update_preferences, _handle_general_conversation.
  rewrite Hpref, Hconv, Hreset.
  unfold try_except, bind, get_session, modify, ret. cbn.
  rewrite preferences_same. cbn. rewrite Hret. cbn.
  unfold add_message, set_stale. cbn. now rewrite <- app_assoc.
Qed.

End Pipeline.

(** C1, on the code. The first node does set the redirect message for an
    utterance outside the domain, but the graph then runs the second node
    all the same: with no text-generation service the turn is answered by
    the canned greeting, not by the redirect message, and the utterance and
    the answer are added to the chat memory. *)
Theorem out_of_domain_redirect_overwritten :
  forall (svc : Services) (user_input : string) (s : Session),
    preference_chain svc = None ->
    conversation_chain svc = None ->
    is_relevant_to_shopping user_input = false ->
    PyStr.any_in reset_phrases (PyStr.lower user_input) = false ->
    process_message svc user_input s
    = (mkSession (current_preferences s) (current_preferences s)
                 (memory s ++ [HumanMessage user_input; AIMessage canned_reply])
                 (calls s),
       Ok canned_reply)
    /\ canned_reply <> redirect_message.
Proof.
  intros svc user_input s Hpref Hconv Hrel Hreset.
  split; [|discriminate].
  pose (st1 := set_should_retrieve false
                 (set_answer redirect_message
                             (mkState (memory s) user_input "" false))).
  pose proof (respond_without_chains svc st1 s Hpref Hconv eq_refl Hreset)
    as Hnode2.
  unfold process_message, process_message_with, agent, _process_input_and_route.
  cbn [question]. rewrite Hrel. cbn [negb].
  unfold bind, get_session, try_except. unfold ret at 1.
  fold st1. rewrite Hnode2. reflexivity.
Qed.

Lemma out_of_domain_redirect_overwritten_witness :
  process_message offline_services "what is the weather" fresh_session
  = (mkSession empty_preferences empty_preferences
               [HumanMessage "what is the weather"; AIMessage canned_reply] 0,
     Ok canned_reply)
  /\ canned_reply <> redirect_message.
Proof.
  exact (out_of_domain_redirect_overwritten offline_services "what is the weather"
           fresh_session eq_refl eq_refl eq_refl eq_refl).
Defined.

(** C3, on the code. With preferences set, the two-word utterance
    "clear preferences" counts as a short refinement, so the turn is
    routed to product search and never reaches the reset: with no
    text-generation service and no vector store the record is left as it
    was and the answer is the no-products message. *)
Theorem short_reset_goes_to_search :
  forall (svc : Services) (s : Session),
    preference_chain svc = None ->
    vector_available svc = false ->
    has_active_preferences (current_preferences s) = true ->
    current_preferences (fst (process_message svc "clear preferences" s))
    = current_preferences s
    /\ snd (process_message svc "clear preferences" s) = Ok no_products_message
    /\ no_products_message <> cleared_message.
Proof.
  intros svc s Hpref Hvec Hactive.
  assert (Hrun : process_message svc "clear preferences" s
                 = (mkSession (current_preferences s) (current_preferences s)
                              (memory s ++ [HumanMessage "clear preferences";
                                            AIMessage no_products_message])
                              (calls s),
                    Ok no_products_message)).
  { unfold process_message, process_message_with, agent,
      _process_input_and_route, _execute_search_or_respond,
      _handle_preference_update, _handle_product_search,
      update_preferences, search_products.
    rewrite Hpref, Hvec.
    change (is_relevant_to_shopping (question _)) with true.
    unfold try_except, bind, get_session, modify, ret.
    cbn [negb fst snd question current_preferences stale_preferences set_stale
         memory calls].
    rewrite Hactive.
    change (should_search_products "clear preferences" true) with true.
    rewrite preferences_same.
    cbn [should_retrieve set_should_retrieve nonempty negb answer set_answer
         question add_message current_preferences stale_preferences memory calls].
    unfold add_message, set_stale. cbn. now rewrite <- app_assoc. }
  rewrite Hrun. repeat split. discriminate.
Qed.

Lemma short_reset_goes_to_search_witness :
  current_preferences
    (fst (process_message offline_services "clear preferences" black_session))
  = mkPrefs None None [] [] ["black"] [] []
  /\ snd (process_message offline_services "clear preferences" black_session)
     = Ok no_products_message
  /\ no_products_message <> cleared_message.
Proof.
  exact (short_reset_goes_to_search offline_services black_session
           eq_refl eq_refl eq_refl).
Defined.

(** The reset itself works when the turn reaches it: "start over" has
    more than one word but no search keyword, and with an empty record it
    is answered by the general-conversation handler. *)
Lemma reset_clears_when_reached :
  process_message offline_services "start over" fresh_session
  = (mkSession empty_preferences empty_preferences
               [HumanMessage "start over"; AIMessage cleared_message] 0,
     Ok cleared_message).
Proof. vm_compute. reflexivity. Qed.

(** The comparison in [_handle_preference_update] reads the old list
    objects after append mode has extended them in place: an appended new
    color goes unnoticed, while in replace mode the same delta is seen. *)
Lemma append_change_unnoticed :
  let st := mkState [] "also red" "" false in
  let run := _handle_preference_update red_services "also red" st black_session in
  snd run = Ok (st, false)
  /\ colors (current_preferences (fst run)) = ["black"; "red"]
  /\ snd (_handle_preference_update red_services "red"
            (mkState [] "red" "" false) black_session)
     = Ok (mkState [] "red"
             ("Updated preferences to: Colors: red" ++ nl ++ "                    "
              ++ nl ++ "I couldn't find any products matching these exact criteria. Try adjusting your preferences.")
             false, true).
Proof. vm_compute. repeat split. Qed.

(** C10, the claim on the code: when the vector store raises during a
    product search, the turn is answered with the search-error message,
    which is a failure message of its own and not the generic one. *)
Lemma search_failure_is_visible :
  vector_search broken_search_services 0
    (build_search_query_with_preferences "show me bags" empty_preferences) 30
  = Raise (CollaboratorError "store unreachable")
  /\ snd (process_message broken_search_services "show me bags" fresh_session)
     = Ok search_error_message
  /\ search_error_message <> technical_difficulties_message.
Proof.
  split; [reflexivity|]. split; [vm_compute; reflexivity | discriminate].
Qed.

(** C10, amended. Whatever the graph does, [process_message] returns a
    string and raises nothing: the answer of the graph when it returns,
    the generic technical-difficulties message when it raises. The graph
    of the workflow itself never raises, for every raise of a collaborator
    is caught in the handler that made the call; a raise of the search
    inside the product-search handler is answered with the search-error
    message, so that message is a second failure message the user can
    see. *)
Theorem process_message_never_raises :
  (forall (invoke : BotState -> M BotState) (user_input : string),
      never_raises (process_message_with invoke user_input))
  /\ (forall (invoke : BotState -> M BotState) (user_input : string) (s : Session),
         process_message_with invoke user_input s
         = match invoke (mkState (memory s) user_input "" false) s with
           | (s', Ok result) => (s', Ok (answer result))
           | (s', Raise _) => (s', Ok technical_difficulties_message)
           end)
  /\ (forall (svc : Services) (state : BotState), never_raises (agent svc state))
  /\ (forall (svc : Services) (user_input : string),
         never_raises (process_message svc user_input))
  /\ (forall (svc : Services) (user_question : string) (state : BotState)
             (s : Session),
         snd (_handle_product_search svc user_question state s)
         = match snd (search_products svc user_question (current_preferences s)
                                      default_max_results s) with
           | Raise _ => Ok (set_answer search_error_message state)
           | Ok docs =>
               if nonempty docs
               then Ok (set_answer
                          ("Here are some products that match your criteria, sorted by price (highest to lowest):"
                           ++ nl ++ product_grid svc docs) state)
               else Ok (set_answer no_products_message state)
           end).
Proof.
  assert (Htotal : forall invoke user_input,
             never_raises (process_message_with invoke user_input)).
  { intros invoke user_input. unfold process_message_with.
    apply never_raises_bind; [apply never_raises_get|]. intros s.
    apply never_raises_try. intros e. apply never_raises_ret. }
  split; [exact Htotal|]. split; [|split; [|split]].
  - intros invoke user_input s.
    unfold process_message_with, bind, get_session, try_except, ret.
    destruct (invoke _ s) as [s' [result|e]]; reflexivity.
  - apply agent_returns.
  - intros svc user_input. apply Htotal.
  - intros svc user_question state s.
    unfold _handle_product_search, try_except, bind, get_session, ret.
    destruct (search_products svc user_question (current_preferences s)
                              default_max_results s) as [s' [docs|e]];
      cbn [snd]; [|reflexivity].
    destruct docs; reflexivity.
Qed.

(** * Further properties of the code *)

(** ** Substring tests *)

Lemma prefix_append (n h : string) :
  String.prefix n h = true <-> exists post, h = (n ++ post)%string.
Proof.
  revert h. induction n as [|a n IH]; intros h.
  - split; [intros _; now exists h | intros _; now destruct h].
  - destruct h as [|b h]; simpl.
    + split; [discriminate | intros [post H]; discriminate H].
    + destruct (ascii_dec a b) as [->|Hab].
      * rewrite IH. split; intros [post H]; exists post.
        -- now rewrite H.
        -- now injection H.
      * split; [discriminate|]. intros [post H]. injection H as H1 H2.
        congruence.
Qed.

Lemma contains_unfold (n h : string) :
  PyStr.contains n h
  = String.prefix n h
    || match h with
       | EmptyString => false
       | String _ t => PyStr.contains n t
       end.
Proof. destruct h; reflexivity. Qed.

(** [n in h] holds exactly when [h] is [n] with text before and after. *)
Lemma contains_spec (n h : string) :
  PyStr.contains n h = true
  <-> exists pre post, h = (pre ++ n ++ post)%string.
Proof.
  split.
  - induction h as [|c t IH]; rewrite contains_unfold; intros H;
      apply orb_true_iff in H; destruct H as [H|H]; try discriminate.
    + apply prefix_append in H. destruct H as [post H]. now exists "", post.
    + apply prefix_append in H. destruct H as [post H]. now exists "", post.
    + destruct (IH H) as (pre & post & ->). now exists (String c pre), post.
  - intros (pre & post & ->). induction pre as [|c pre IH].
    + rewrite contains_unfold. apply orb_true_iff. left.
      apply prefix_append. now exists post.
    + rewrite contains_unfold. apply orb_true_iff. right. exact IH.
Qed.

Lemma string_append_assoc (a b c : string) :
  ((a ++ b) ++ c = a ++ b ++ c)%string.
Proof. induction a as [|x a IH]; simpl; [reflexivity | now rewrite IH]. Qed.

Lemma contains_trans (a b c : string) :
  PyStr.contains a b = true -> PyStr.contains b c = true ->
  PyStr.contains a c = true.
Proof.
  rewrite !contains_spec. intros (p1 & q1 & ->) (p2 & q2 & ->).
  exists (p2 ++ p1)%string, (q1 ++ q2)%string.
  now rewrite !string_append_assoc.
Qed.

Lemma contains_context (n h pre post : string) :
  PyStr.contains n h = true ->
  PyStr.contains n (pre ++ h ++ post) = true.
Proof.
  intros H. apply (contains_trans n h); [exact H|].
  apply contains_spec. now exists pre, post.
Qed.

Lemma any_in_intro (terms : list string) (t s : string) :
  In t terms -> PyStr.contains t s = true -> PyStr.any_in terms s = true.
Proof.
  intros Hin Hc. unfold PyStr.any_in. apply existsb_exists. now exists t.
Qed.

Lemma any_in_context (terms : list string) (s pre post : string) :
  PyStr.any_in terms s = true ->
  PyStr.any_in terms (pre ++ s ++ post) = true.
Proof.
  unfold PyStr.any_in. rewrite !existsb_exists. intros (t & Hin & Hc).
  exists t. split; [exact Hin | now apply contains_context].
Qed.

Lemma lower_append3 (a b c : string) :
  PyStr.lower (a ++ b ++ c)
  = (PyStr.lower a ++ PyStr.lower b ++ PyStr.lower c)%string.
Proof.
  induction a as [|x a IH]; simpl.
  - induction b as [|y b IHb]; simpl; [reflexivity | now rewrite IHb].
  - now rewrite IH.
Qed.

(** X1. An utterance that is relevant to shopping, or that is read as
    append mode, stays so when text is put before and after it: the
    keyword tests only look for substrings. *)
Theorem keyword_tests_survive_context :
  forall (user_input before after : string),
    (is_relevant_to_shopping user_input = true ->
     is_relevant_to_shopping (before ++ user_input ++ after) = true)
    /\ (_analyze_intent user_input = true ->
        _analyze_intent (before ++ user_input ++ after) = true).
Proof.
  intros user_input before after.
  unfold is_relevant_to_shopping, _analyze_intent. rewrite lower_append3.
  split; apply any_in_context.
Qed.

Lemma keyword_tests_survive_context_witness :
  is_relevant_to_shopping ("is this " ++ "leather" ++ " or not") = true
  /\ _analyze_intent ("red " ++ "as well" ++ " please") = true.
Proof.
  split.
  - apply (proj1 (keyword_tests_survive_context "leather" "is this " " or not")).
    reflexivity.
  - apply (proj2 (keyword_tests_survive_context "as well" "red " " please")).
    reflexivity.
Defined.

(** X2. The append indicators are matched inside words: an utterance
    that mentions a word holding an indicator (as "handbag" and "brand"
    hold "and") is merged in append mode. *)
Theorem indicator_inside_word :
  forall (user_input word indicator : string),
    In indicator append_indicators ->
    PyStr.contains indicator word = true ->
    PyStr.contains word (PyStr.lower user_input) = true ->
    _analyze_intent user_input = true.
Proof.
  intros user_input word indicator Hin Hword Hu.
  unfold _analyze_intent. apply (any_in_intro _ indicator); [exact Hin|].
  now apply (contains_trans indicator word).
Qed.

Lemma indicator_inside_word_witness :
  _analyze_intent "A black Handbag" = true.
Proof.
  apply (indicator_inside_word "A black Handbag" "handbag" "and").
  - simpl. tauto.
  - reflexivity.
  - reflexivity.
Defined.

(** ** Brand and category validation *)

Lemma dict_get_In {V : Type} (k : string) (d : list (string * V)) (v : V) :
  dict_get k d = Some v -> In (k, v) d.
Proof.
  induction d as [|[k' v'] d IH]; simpl; [discriminate|].
  destruct (String.eqb_spec k k') as [->|Hne].
  - intros H. injection H as ->. now left.
  - intros H. right. now apply IH.
Qed.

Lemma corrections_are_brands (k c : string) :
  dict_get k Settings.BRAND_CORRECTIONS = Some c -> In c Settings.VALID_BRANDS.
Proof.
  intros H. apply dict_get_In in H.
  assert (Hall : forallb (fun kv => PyStr.mem (snd kv) Settings.VALID_BRANDS)
                         Settings.BRAND_CORRECTIONS = true) by (vm_compute; reflexivity).
  rewrite forallb_forall in Hall. apply mem_In. exact (Hall (k, c) H).
Qed.

Lemma validate_brands_cons (brand : string) (rest : list string) :
  _validate_brands (brand :: rest)
  = match find (fun vb => String.eqb (PyStr.strip (PyStr.lower brand))
                                     (PyStr.lower vb))
               Settings.VALID_BRANDS with
    | Some vb => (vb :: fst (_validate_brands rest), snd (_validate_brands rest))
    | None =>
        match dict_get (PyStr.strip (PyStr.lower brand))
                       Settings.BRAND_CORRECTIONS with
        | Some c => (c :: fst (_validate_brands rest), snd (_validate_brands rest))
        | None => (fst (_validate_brands rest), brand :: snd (_validate_brands rest))
        end
    end.
Proof.
  change (_validate_brands (brand :: rest))
    with (let brand_lower := PyStr.strip (PyStr.lower brand) in
          let '(valid, invalid) := _validate_brands rest in
          match find (fun vb => String.eqb brand_lower (PyStr.lower vb))
                     Settings.VALID_BRANDS with
          | Some vb => (vb :: valid, invalid)
          | None =>
              match dict_get brand_lower Settings.BRAND_CORRECTIONS with
              | Some c => (c :: valid, invalid)
              | None => (valid, brand :: invalid)
              end
          end).
  cbv zeta. now destruct (_validate_brands rest).
Qed.

(** X3. Every brand that brand validation accepts is an entry of the
    brand vocabulary, written as the vocabulary writes it; every brand it
    rejects is one of the claimed brands, unchanged; and each claimed brand
    is counted once, as accepted or as rejected. *)
Theorem validate_brands_sound :
  forall (claimed : list string),
    (forall b, In b (fst (_validate_brands claimed)) -> In b Settings.VALID_BRANDS)
    /\ (forall b, In b (snd (_validate_brands claimed)) -> In b claimed)
    /\ (length (fst (_validate_brands claimed))
        + length (snd (_validate_brands claimed)) = length claimed)%nat.
Proof.
  induction claimed as [|brand rest (IH1 & IH2 & IH3)].
  - simpl. repeat split; tauto.
  - rewrite validate_brands_cons.
    destruct (find _ Settings.VALID_BRANDS) as [vb|] eqn:Hfind.
    + apply find_some in Hfind. destruct Hfind as [Hvb _].
      cbn [fst snd length In]. repeat split.
      * intros b [<-|Hb]; [exact Hvb | now apply IH1].
      * intros b Hb. right. now apply IH2.
      * lia.
    + destruct (dict_get _ Settings.BRAND_CORRECTIONS) as [c|] eqn:Hcorr.
      * apply corrections_are_brands in Hcorr.
        cbn [fst snd length In]. repeat split.
        -- intros b [<-|Hb]; [exact Hcorr | now apply IH1].
        -- intros b Hb. right. now apply IH2.
        -- lia.
      * cbn [fst snd length In]. repeat split.
        -- exact IH1.
        -- intros b [<-|Hb]; [now left | right; now apply IH2].
        -- lia.
Qed.

Lemma canonical_brand_found (v : string) :
  In v Settings.VALID_BRANDS ->
  find (fun vb => String.eqb (PyStr.lower v) (PyStr.lower vb)) Settings.VALID_BRANDS
  = Some v.
Proof.
  intros Hin.
  assert (Hall : forallb
                   (fun v =>
                      match find (fun vb => String.eqb (PyStr.lower v) (PyStr.lower vb))
                                 Settings.VALID_BRANDS with
                      | Some x => String.eqb x v
                      | None => false
                      end) Settings.VALID_BRANDS = true) by (vm_compute; reflexivity).
  rewrite forallb_forall in Hall. specialize (Hall v Hin).
  destruct (find _ Settings.VALID_BRANDS) as [x|]; [|discriminate].
  apply String.eqb_eq in Hall. now subst.
Qed.

(** X4. Brand matching ignores letter case and surrounding white space:
    a claimed brand that, lowered and stripped, spells a vocabulary entry
    in lower case is accepted and replaced by that entry. *)
Theorem validate_brands_canonical :
  forall (claimed canonical : string),
    In canonical Settings.VALID_BRANDS ->
    PyStr.strip (PyStr.lower claimed) = PyStr.lower canonical ->
    _validate_brands [claimed] = ([canonical], []).
Proof.
  intros claimed canonical Hin Heq.
  rewrite validate_brands_cons, Heq, (canonical_brand_found canonical Hin).
  reflexivity.
Qed.

Lemma validate_brands_canonical_witness :
  _validate_brands ["  pierre CARDIN "] = (["PIERRE CARDIN"], []).
Proof.
  apply (validate_brands_canonical "  pierre CARDIN " "PIERRE CARDIN").
  - apply mem_In. vm_compute. reflexivity.
  - vm_compute. reflexivity.
Defined.

Lemma validate_categories_cons (vocab : list string) (c : string)
      (rest : list string) :
  validate_categories_in vocab (c :: rest)
  = let category := PyStr.strip (PyStr.lower c) in
    let valid := fst (validate_categories_in vocab rest) in
    let feats := snd (validate_categories_in vocab rest) in
    if PyStr.mem category vocab then (category :: valid, feats)
    else
      match dict_get category category_corrections with
      | Some corrected =>
          if PyStr.mem corrected vocab then (corrected :: valid, feats)
          else (valid, feats)
      | None =>
          if PyStr.mem (category ++ " bag")%string vocab
          then ((category ++ " bag")%string :: valid, feats)
          else if negb (String.eqb category "tote")
               then (valid, category :: feats)
               else (valid, feats)
      end.
Proof.
  change (validate_categories_in vocab (c :: rest))
    with (let category := PyStr.strip (PyStr.lower c) in
          let '(valid, feats) := validate_categories_in vocab rest in
          if PyStr.mem category vocab then (category :: valid, feats)
          else
            match dict_get category category_corrections with
            | Some corrected =>
                if PyStr.mem corrected vocab then (corrected :: valid, feats)
                else (valid, feats)
            | None =>
                if PyStr.mem (category ++ " bag")%string vocab
                then ((category ++ " bag")%string :: valid, feats)
                else if negb (String.eqb category "tote")
                     then (valid, category :: feats)
                     else (valid, feats)
            end).
  cbv zeta. now destruct (validate_categories_in vocab rest).
Qed.

(** X5. Every category that category validation accepts is an entry of
    the category vocabulary, whatever was claimed. *)
Theorem validate_categories_sound :
  forall (vocab claimed : list string) (c : string),
    In c (fst (validate_categories_in vocab claimed)) -> In c vocab.
Proof.
  intros vocab claimed c. induction claimed as [|x rest IH]; [intros []|].
  rewrite validate_categories_cons. cbv zeta.
  generalize (PyStr.strip (PyStr.lower x)). intros category.
  destruct (PyStr.mem category vocab) eqn:Hmem.
  - cbn [fst In]. intros [<-|H]; [now apply mem_In | now apply IH].
  - destruct (dict_get category category_corrections) as [corrected|].
    + destruct (PyStr.mem corrected vocab) eqn:Hc; cbn [fst In]; [|exact IH].
      intros [<-|H]; [now apply mem_In | now apply IH].
    + destruct (PyStr.mem (category ++ " bag") vocab) eqn:Hb; cbn [fst In].
      * intros [<-|H]; [now apply mem_In | now apply IH].
      * destruct (negb (String.eqb category "tote")); exact IH.
Qed.

Lemma validate_categories_sound_witness :
  In "laptop bag" Settings.BAG_CATEGORIES.
Proof.
  apply (validate_categories_sound Settings.BAG_CATEGORIES
           ["Laptop"; "sparkly"] "laptop bag").
  vm_compute. tauto.
Defined.

Lemma correction_in_vocabulary (category corrected : string) :
  dict_get category category_corrections = Some corrected ->
  PyStr.mem category Settings.BAG_CATEGORIES = true
  \/ PyStr.mem corrected Settings.BAG_CATEGORIES = true.
Proof.
  unfold category_corrections, dict_get.
  repeat match goal with
         | |- context [String.eqb category ?k] =>
             destruct (String.eqb_spec category k) as [->|_];
             [intros H; injection H as <-; vm_compute; tauto|]
         end.
  discriminate.
Qed.

(** X6. Under the category vocabulary of the code no claimed category is
    lost: each one is either accepted into the categories or moved to the
    features. *)
Theorem validate_categories_keeps_every_token :
  forall (claimed : list string),
    (length (fst (_validate_categories claimed))
     + length (snd (_validate_categories claimed)) = length claimed)%nat.
Proof.
  unfold _validate_categories.
  induction claimed as [|x rest IH]; [reflexivity|].
  rewrite validate_categories_cons. cbv zeta.
  generalize (PyStr.strip (PyStr.lower x)). intros category.
  destruct (PyStr.mem category Settings.BAG_CATEGORIES) eqn:Hmem.
  - cbn [fst snd length]. lia.
  - destruct (dict_get category category_corrections) as [corrected|] eqn:Hcorr.
    + destruct (correction_in_vocabulary category corrected Hcorr) as [H|H];
        [congruence|].
      rewrite H. cbn [fst snd length]. lia.
    + destruct (PyStr.mem (category ++ " bag") Settings.BAG_CATEGORIES).
      * cbn [fst snd length]. lia.
      * destruct (String.eqb_spec category "tote") as [->|_].
        -- discriminate Hmem.
        -- cbn [negb fst snd length]. lia.
Qed.

(** ** More on the merger *)

Lemma merge_field (cur delta : UserPreferences) (append_mode : bool) :
  every_field (fun f =>
    f (_merge_preferences cur delta append_mode)
    = if append_mode then dict_fromkeys (f cur ++ f delta)
      else if nonempty (f delta) then f delta else f cur).
Proof.
  unfold every_field. destruct append_mode; repeat split; reflexivity.
Qed.

Lemma every_field_impl (P Q : (UserPreferences -> list string) -> Prop) :
  (forall f, P f -> Q f) -> every_field P -> every_field Q.
Proof.
  unfold every_field. intros H (H1 & H2 & H3 & H4 & H5). repeat split; now apply H.
Qed.

Lemma every_field_and (P Q : (UserPreferences -> list string) -> Prop) :
  every_field P -> every_field Q -> every_field (fun f => P f /\ Q f).
Proof.
  unfold every_field. intros (H1 & H2 & H3 & H4 & H5) (G1 & G2 & G3 & G4 & G5).
  repeat split; assumption.
Qed.

(** X7. A merge, in either mode, puts nothing into a field that was not
    in that field of the record or of the delta. *)
Theorem merge_adds_nothing_foreign :
  forall (cur delta : UserPreferences) (append_mode : bool),
    every_field (fun f =>
      forall x, In x (f (_merge_preferences cur delta append_mode)) ->
                In x (f cur) \/ In x (f delta)).
Proof.
  intros cur delta append_mode.
  eapply every_field_impl; [|apply (merge_field cur delta append_mode)].
  cbv beta. intros f Hf x. rewrite Hf. destruct append_mode.
  - rewrite dict_fromkeys_In. apply in_app_or.
  - destruct (f delta); simpl; tauto.
Qed.

(** X8. An append-mode merge into a record without duplicates leaves
    the existing entries of each field where they were and puts the
    delta's new entries, each once, after them. *)
Theorem append_keeps_existing_order :
  forall (cur delta : UserPreferences),
    duplicate_free cur ->
    every_field (fun f =>
      f (_merge_preferences cur delta true)
      = f cur ++ first_seen (f cur) (f delta)).
Proof.
  intros cur delta Hnd.
  eapply every_field_impl;
    [|apply (every_field_and _ _ Hnd (merge_field cur delta true))].
  cbv beta. intros f [Hf Heq]. rewrite Heq.
  unfold dict_fromkeys. rewrite fold_left_app.
  fold (dict_fromkeys (f cur)). rewrite (dict_fromkeys_fixed _ Hf).
  now apply fold_dict_add_first_seen.
Qed.

Lemma append_keeps_existing_order_witness :
  colors (_merge_preferences (mkPrefs None None [] [] ["black"; "red"] [] [])
                             (mkPrefs None None [] [] ["blue"; "red"; "blue"] [] [])
                             true)
  = ["black"; "red"] ++ first_seen ["black"; "red"] ["blue"; "red"; "blue"].
Proof.
  refine (proj1 (proj2 (proj2
    (append_keeps_existing_order
       (mkPrefs None None [] [] ["black"; "red"] [] [])
       (mkPrefs None None [] [] ["blue"; "red"; "blue"] [] []) _)))).
  unfold duplicate_free, every_field. simpl.
  repeat split; repeat constructor; simpl; intuition discriminate.
Defined.

(** X9. Append mode always leaves every field without duplicates;
    replace mode adopts the delta's list as it is, so it leaves the record
    without duplicates when the record and the delta had none. *)
Theorem merge_keeps_duplicate_free :
  forall (cur delta : UserPreferences) (append_mode : bool),
    (append_mode = false -> duplicate_free cur /\ duplicate_free delta) ->
    duplicate_free (_merge_preferences cur delta append_mode).
Proof.
  intros cur delta [|] H; unfold duplicate_free.
  - eapply every_field_impl; [|apply (merge_field cur delta true)].
    cbv beta. intros f Heq. rewrite Heq. apply dict_fromkeys_NoDup.
  - destruct (H eq_refl) as [Hc Hd].
    eapply every_field_impl;
      [|apply (every_field_and _ _ (every_field_and _ _ Hc Hd)
                               (merge_field cur delta false))].
    cbv beta. intros f [[Hfc Hfd] Heq]. rewrite Heq.
    now destruct (nonempty (f delta)).
Qed.

Lemma merge_keeps_duplicate_free_witness :
  duplicate_free (_merge_preferences
                    (mkPrefs None None [] [] ["black"] [] [])
                    (mkPrefs None None [] ["clutch"] [] [] []) false).
Proof.
  apply (merge_keeps_duplicate_free
           (mkPrefs None None [] [] ["black"] [] [])
           (mkPrefs None None [] ["clutch"] [] [] []) false).
  intros _. unfold duplicate_free, every_field. simpl.
  repeat split; repeat constructor; simpl; tauto.
Defined.

(** X10. A delta that claims nothing changes nothing: in replace mode
    for every record, in append mode for every record without duplicates
    (append mode rebuilds each list without its repetitions). *)
Theorem empty_delta_changes_nothing :
  forall (cur : UserPreferences) (append_mode : bool),
    (append_mode = true -> duplicate_free cur) ->
    _merge_preferences cur empty_delta append_mode = cur.
Proof.
  intros [mn mx bs cs cl ms fs] [|] H; unfold _merge_preferences; simpl.
  - destruct (H eq_refl) as (H1 & H2 & H3 & H4 & H5). simpl in *.
    rewrite !app_nil_r, !dict_fromkeys_fixed by assumption. reflexivity.
  - reflexivity.
Qed.

Lemma empty_delta_changes_nothing_witness :
  _merge_preferences (mkPrefs (Some (20 # 1)) None ["Guess"] [] ["tan"] [] [])
                     empty_delta true
  = mkPrefs (Some (20 # 1)) None ["Guess"] [] ["tan"] [] [].
Proof.
  apply (empty_delta_changes_nothing
           (mkPrefs (Some (20 # 1)) None ["Guess"] [] ["tan"] [] []) true).
  intros _. unfold duplicate_free, every_field. simpl.
  repeat split; repeat constructor; simpl; tauto.
Defined.

Lemma normalize_brands_valid (raw : UserPreferences) (b : string) :
  In b (brands (normalize raw)) -> In b Settings.VALID_BRANDS.
Proof.
  unfold normalize.
  destruct (if nonempty (categories raw) then _ else _) as [cs fs].
  cbn [brands]. destruct (brands raw) as [|x l] eqn:Hb; cbn [nonempty].
  - intros [].
  - apply (proj1 (validate_brands_sound (x :: l))).
Qed.

Lemma normalize_categories_valid (raw : UserPreferences) (c : string) :
  In c (categories (normalize raw)) -> In c Settings.BAG_CATEGORIES.
Proof.
  unfold normalize.
  destruct (categories raw) as [|x l] eqn:Hc; cbn [nonempty].
  - intros [].
  - destruct (_validate_categories (x :: l)) as [valid feats] eqn:Hv.
    cbn [categories]. intros Hin.
    apply (validate_categories_sound Settings.BAG_CATEGORIES (x :: l)).
    unfold _validate_categories in Hv. now rewrite Hv.
Qed.

(** X11. Validation and merge keep the record inside the vocabularies:
    when the brands and categories of the record are vocabulary entries,
    so are those of the record after any extracted delta is merged. *)
Theorem merge_keeps_vocabulary :
  forall (cur raw : UserPreferences) (user_input : string),
    (forall b, In b (brands cur) -> In b Settings.VALID_BRANDS) ->
    (forall c, In c (categories cur) -> In c Settings.BAG_CATEGORIES) ->
    (forall b, In b (brands (_validate_and_merge cur raw user_input)) ->
               In b Settings.VALID_BRANDS)
    /\ (forall c, In c (categories (_validate_and_merge cur raw user_input)) ->
                  In c Settings.BAG_CATEGORIES).
Proof.
  intros cur raw user_input Hb Hc. unfold _validate_and_merge.
  destruct (merge_adds_nothing_foreign cur (normalize raw)
              (_analyze_intent user_input)) as (Mb & Mc & _).
  split.
  - intros b Hin. destruct (Mb b Hin) as [H|H];
      [now apply Hb | now apply (normalize_brands_valid raw)].
  - intros c Hin. destruct (Mc c Hin) as [H|H];
      [now apply Hc | now apply (normalize_categories_valid raw)].
Qed.

Lemma merge_keeps_vocabulary_witness :
  (forall b, In b (brands (_validate_and_merge
                             (mkPrefs None None ["Guess"] ["clutch"] [] [] [])
                             (mkPrefs None None ["ck"; "acme"] ["Laptop"; "shiny"]
                                      [] [] [])
                             "also ck")) ->
             In b Settings.VALID_BRANDS)
  /\ (forall c, In c (categories (_validate_and_merge
                                    (mkPrefs None None ["Guess"] ["clutch"] [] [] [])
                                    (mkPrefs None None ["ck"; "acme"]
                                             ["Laptop"; "shiny"] [] [] [])
                                    "also ck")) ->
                In c Settings.BAG_CATEGORIES).
Proof.
  apply (merge_keeps_vocabulary
           (mkPrefs None None ["Guess"] ["clutch"] [] [] [])
           (mkPrefs None None ["ck"; "acme"] ["Laptop"; "shiny"] [] [] [])
           "also ck").
  - intros b [<-|[]]. apply mem_In. vm_compute. reflexivity.
  - intros c [<-|[]]. apply mem_In. vm_compute. reflexivity.
Defined.

(** ** The record and its summary *)

(** X12. A record has active preferences exactly when it differs from
    the cleared record: any price bound, even zero, and any entry in any of
    the five lists, features included, makes it active. *)
Theorem inactive_iff_cleared :
  forall (p : UserPreferences),
    has_active_preferences p = false <-> p = clear p.
Proof.
  intros [mn mx bs cs cl ms fs]. unfold has_active_preferences, clear. simpl.
  split.
  - destruct mn, mx, bs, cs, cl, ms, fs; simpl; try discriminate. reflexivity.
  - intros H. injection H as -> -> -> -> -> -> ->. reflexivity.
Qed.

(** X13. The summary says "No active preferences set" for every record
    whose brands, categories, colors and materials are empty and whose
    price bounds are absent or zero, whatever its features are: features
    are never summarized and a bound of zero counts as no bound, although
    such a record has active preferences. *)
Theorem summary_ignores_features_and_zero :
  forall (svc : Services) (mn mx : option Q) (fs : list string),
    truthy mn = false ->
    truthy mx = false ->
    get_summary svc (mkPrefs mn mx [] [] [] [] fs) = "No active preferences set"
    /\ (fs <> [] -> has_active_preferences (mkPrefs mn mx [] [] [] [] fs) = true).
Proof.
  intros svc mn mx fs Hmn Hmx. split.
  - unfold get_summary. cbn [price_min price_max brands categories colors materials].
    rewrite Hmn, Hmx. reflexivity.
  - intros Hfs. unfold has_active_preferences. simpl.
    destruct fs; [congruence|]. simpl. now rewrite !orb_true_r.
Qed.

Lemma summary_ignores_features_and_zero_witness :
  get_summary offline_services (mkPrefs (Some 0) None [] [] [] [] ["zip pocket"])
  = "No active preferences set"
  /\ (["zip pocket"] <> [] ->
      has_active_preferences (mkPrefs (Some 0) None [] [] [] [] ["zip pocket"]) = true).
Proof.
  apply (summary_ignores_features_and_zero offline_services (Some 0) None
           ["zip pocket"]); reflexivity.
Defined.

(** ** More on the candidate filter *)

Lemma run_rejects (c : ascii) (str : string) (s : PyFloat.scan) :
  PyFloat.classify c = PyFloat.COther ->
  In c (list_ascii_of_string str) ->
  PyFloat.run s str = None.
Proof.
  intros Hc. revert s.
  induction str as [|d t IH]; intros s Hin; simpl in *; [contradiction|].
  destruct Hin as [->|Hin].
  - now rewrite Hc, step_other.
  - destruct (PyFloat.step s (PyFloat.classify d)); [now apply IH | reflexivity].
Qed.

Lemma fold_filter_step_app (catalog : list (string * string))
      (prefs : UserPreferences) (docs : list Document) (acc : list Document) :
  fold_left (filter_step catalog prefs) docs acc
  = acc ++ fold_left (filter_step catalog prefs) docs [].
Proof.
  now rewrite !filter_loop_kept.
Qed.

(** X14. A candidate whose price is a string with a dollar sign or a
    comma in it is never returned and does not affect what is returned:
    [search_products] converts the price without removing these symbols,
    although [matches_preferences] removes them before it compares. *)
Theorem symbol_price_never_returned :
  forall (catalog : list (string * string)) (prefs : UserPreferences)
         (before after : list Document) (doc : Document) (price : string)
         (max_results : Z),
    meta_price (metadata doc) = Some (VStr price) ->
    In "$"%char (list_ascii_of_string price)
    \/ In ","%char (list_ascii_of_string price) ->
    filter_and_rank catalog (before ++ doc :: after) prefs max_results
    = filter_and_rank catalog (before ++ after) prefs max_results.
Proof.
  intros catalog prefs before after doc price max_results Hprice Hsym.
  assert (Hnone : PyFloat.of_string price = None).
  { unfold PyFloat.of_string.
    destruct Hsym as [H|H].
    - now rewrite (run_rejects "$" price PyFloat.scan0 eq_refl H).
    - now rewrite (run_rejects "," price PyFloat.scan0 eq_refl H). }
  assert (Hstep : forall acc, filter_step catalog prefs acc doc = acc).
  { intros acc. unfold filter_step. rewrite Hprice. cbn [get_or py_float].
    rewrite Hnone. now destruct (in_catalog catalog doc && _). }
  unfold filter_and_rank. rewrite !fold_left_app. cbn [fold_left].
  now rewrite Hstep.
Qed.

Lemma symbol_price_never_returned_witness :
  matches_preferences
    (mkDoc "black tote" (mkMeta (Some "Tote") (Some "Guess") (Some (VStr "$80"))
                                (Some "https://shop.example/tote")))
    (mkPrefs None (Some (100 # 1)) [] [] [] [] []) = true
  /\ filter_and_rank one_item_catalog
       ([priced (50 # 1)]
          ++ mkDoc "black tote" (mkMeta (Some "Tote") (Some "Guess")
                                        (Some (VStr "$80"))
                                        (Some "https://shop.example/tote"))
          :: [])
       (mkPrefs None (Some (100 # 1)) [] [] [] [] []) 6
     = filter_and_rank one_item_catalog ([priced (50 # 1)] ++ [])
                       (mkPrefs None (Some (100 # 1)) [] [] [] [] []) 6.
Proof.
  split; [vm_compute; reflexivity|].
  apply (symbol_price_never_returned one_item_catalog
           (mkPrefs None (Some (100 # 1)) [] [] [] [] [])
           [priced (50 # 1)] []
           (mkDoc "black tote" (mkMeta (Some "Tote") (Some "Guess")
                                       (Some (VStr "$80"))
                                       (Some "https://shop.example/tote")))
           "$80" 6).
  - reflexivity.
  - left. simpl. tauto.
Defined.








(** ** More on the turn pipeline *)

Section Frames.

Context {X : Type} (f : Session -> X).

Lemma keeps_ret {A : Type} (a : A) : keeps f (ret a).
Proof. intros s. reflexivity. Qed.

Lemma keeps_get : keeps f get_session.
Proof. intros s. reflexivity. Qed.

Lemma keeps_lift {A : Type} (r : Result A) : keeps f (lift r).
Proof. intros s. reflexivity. Qed.

Lemma keeps_modify (g : Session -> Session) :
  (forall s, f (g s) = f s) -> keeps f (modify g).
Proof. intros H s. apply H. Qed.

Lemma keeps_bind {A B : Type} (m : M A) (k : A -> M B) :
  keeps f m -> (forall a, keeps f (k a)) -> keeps f (bind m k).
Proof.
  intros Hm Hk s. unfold bind. specialize (Hm s).
  destruct (m s) as [s1 [a|e]]; cbn [fst] in *.
  - now rewrite Hk.
  - exact Hm.
Qed.

Lemma keeps_try {A : Type} (m : M A) (h : Exn -> M A) :
  keeps f m -> (forall e, keeps f (h e)) -> keeps f (try_except m h).
Proof.
  intros Hm Hh s. unfold try_except. specialize (Hm s).
  destruct (m s) as [s1 [a|e]]; cbn [fst] in *.
  - exact Hm.
  - now rewrite Hh.
Qed.

End Frames.

Lemma keeps_memory_next_call : keeps memory next_call.
Proof. intros s. reflexivity. Qed.

Lemma keeps_preferences_next_call : keeps current_preferences next_call.
Proof. intros s. reflexivity. Qed.

Lemma returns_ret {A : Type} (a : A) (R : A -> Prop) :
  R a -> returns_with (ret a) R.
Proof. intros H s a' Heq. injection Heq as <-. exact H. Qed.

Lemma returns_bind {A B : Type} (m : M A) (k : A -> M B) (R : B -> Prop) :
  (forall a, returns_with (k a) R) -> returns_with (bind m k) R.
Proof.
  intros Hk s b. unfold bind. destruct (m s) as [s1 [a|e]]; cbn [snd].
  - apply Hk.
  - discriminate.
Qed.

Lemma returns_try {A : Type} (m : M A) (h : Exn -> M A) (R : A -> Prop) :
  returns_with m R -> (forall e, returns_with (h e) R) ->
  returns_with (try_except m h) R.
Proof.
  intros Hm Hh s a. unfold try_except. specialize (Hm s).
  destruct (m s) as [s1 [a1|e]]; cbn [snd] in *.
  - apply Hm.
  - apply Hh.
Qed.

(** Walks through a computation built from the monad's operations. *)
Ltac frame :=
  repeat first
    [ apply keeps_ret | apply keeps_get | apply keeps_lift
    | apply keeps_memory_next_call | apply keeps_preferences_next_call
    | apply keeps_modify; intros; reflexivity
    | apply keeps_bind; [|intros]
    | apply keeps_try; [|intros]
    | match goal with
      | |- keeps _ (if ?b then _ else _) => destruct b
      | |- keeps _ (match ?x with _ => _ end) => destruct x
      end ].

Ltac returns :=
  repeat first
    [ apply returns_ret; reflexivity
    | apply returns_bind; intros
    | apply returns_try; [|intros]
    | match goal with
      | |- returns_with (if ?b then _ else _) _ => destruct b
      | |- returns_with (match ?x with _ => _ end) _ => destruct x
      end ].



Lemma search_products_keeps_preferences (svc : Services) (q : string)
      (p : UserPreferences) (k : Z) :
  keeps current_preferences (search_products svc q p k).
Proof. unfold search_products. frame. Qed.








Lemma process_input_question (svc : Services) (st : BotState) :
  returns_with (_process_input_and_route svc st)
               (fun st' => question st' = question st).
Proof. unfold _process_input_and_route. returns. Qed.

(** X17. A preference extraction that is not configured or that raises
    is a no-op on the record: [update_preferences] returns the current
    record, unchanged, and raises nothing. *)
Theorem failed_extraction_is_no_op :
  forall (svc : Services) (user_input : string) (s : Session),
    match preference_chain svc with
    | None => True
    | Some chain =>
        exists e, chain (calls s) user_input (current_preferences s) = Raise e
    end ->
    current_preferences (fst (update_preferences svc user_input s))
    = current_preferences s
    /\ snd (update_preferences svc user_input s) = Ok (current_preferences s).
Proof.
  intros svc user_input s H. unfold update_preferences.
  destruct (preference_chain svc) as [chain|].
  - destruct H as [e He].
    unfold bind, try_except, get_session, modify, next_call, lift, ret.
    cbn. rewrite He. cbn. split; reflexivity.
  - split; reflexivity.
Qed.

Lemma failed_extraction_is_no_op_witness :
  current_preferences
    (fst (update_preferences broken_extraction_services "red please" black_session))
  = current_preferences black_session
  /\ snd (update_preferences broken_extraction_services "red please" black_session)
     = Ok (current_preferences black_session).
Proof.
  apply (failed_extraction_is_no_op broken_extraction_services "red please"
           black_session).
  simpl. now exists (CollaboratorError "model timeout").
Defined.


(** [process_message] as the run of the two nodes. *)
Lemma process_message_run (svc : Services) (user_input : string) (s : Session) :
  process_message svc user_input s
  = match _process_input_and_route svc (mkState (memory s) user_input "" false) s with
    | (s1, Ok st1) =>
        match _execute_search_or_respond svc st1 s1 with
        | (s2, Ok st2) => (s2, Ok (answer st2))
        | (s2, Raise _) => (s2, Ok technical_difficulties_message)
        end
    | (s1, Raise _) => (s1, Ok technical_difficulties_message)
    end.
Proof.
  unfold process_message, process_message_with, agent, bind, try_except,
    get_session, ret.
  destruct (_process_input_and_route svc _ s) as [s1 [st1|e]]; [|reflexivity].
  destruct (_execute_search_or_respond svc st1 s1) as [s2 [st2|e]]; reflexivity.
Qed.


(** X19. With no preference chain configured, a turn whose utterance
    holds no reset phrase leaves the preference record exactly as it was,
    whatever the other collaborators do. *)
Theorem record_untouched_without_extraction :
  forall (svc : Services) (user_input : string),
    preference_chain svc = None ->
    PyStr.any_in reset_phrases (PyStr.lower user_input) = false ->
    keeps current_preferences (process_message svc user_input).
Proof.
  intros svc user_input Hpref Hreset.
  assert (Hup : forall u, keeps current_preferences (update_preferences svc u)).
  { intros u. unfold update_preferences. rewrite Hpref. frame. }
  unfold process_message, process_message_with.
  apply keeps_bind; [apply keeps_get|]. intros s0.
  apply keeps_try; [|intros; apply keeps_ret].
  apply keeps_bind; [|intros; apply keeps_ret].
  unfold agent. intros s.
  set (st0 := mkState (memory s0) user_input "" false).
  unfold bind at 1.
  pose proof (process_input_question svc st0 s) as Hq1.
  assert (Hk1 : keeps current_preferences (_process_input_and_route svc st0)).
  { unfold _process_input_and_route.
    destruct (negb (is_relevant_to_shopping (question st0))); [apply keeps_ret|].
    apply keeps_bind; [apply Hup|]. intros p. frame. }
  specialize (Hk1 s).
  destruct (_process_input_and_route svc st0 s) as [s1 [st1|e]];
    cbn [fst snd] in *; [|exact Hk1].
  specialize (Hq1 st1 eq_refl). cbn in Hq1. rewrite <- Hk1.
  assert (Hk2 : keeps current_preferences (_execute_search_or_respond svc st1)).
  { unfold _execute_search_or_respond.
    apply keeps_bind.
    - unfold _handle_preference_update.
      apply keeps_try; [|intros; apply keeps_ret].
      apply keeps_bind; [apply Hup|]. intros p.
      apply keeps_bind; [apply keeps_get|]. intros s'.
      destruct (preferences_differ _ p); [|apply keeps_ret].
      apply keeps_bind; [apply search_products_keeps_preferences|]. intros docs.
      destruct (nonempty docs); apply keeps_ret.
    - intros [st2 updated]. destruct updated; [apply keeps_ret|].
      apply keeps_bind; [|intros; frame].
      destruct (should_retrieve st2).
      + unfold _handle_product_search.
        apply keeps_try; [|intros; apply keeps_ret].
        apply keeps_bind; [apply keeps_get|]. intros s'.
        apply keeps_bind; [apply search_products_keeps_preferences|].
        intros docs. destruct (negb (nonempty docs)); apply keeps_ret.
      + unfold _handle_general_conversation. rewrite Hq1, Hreset. frame. }
  apply Hk2.
Qed.

Lemma record_untouched_without_extraction_witness :
  keeps current_preferences (process_message broken_search_services "show me bags").
Proof.
  apply (record_untouched_without_extraction broken_search_services "show me bags");
    reflexivity.
Defined.

(** [process_message] returns a string from every session. *)
Lemma process_message_returns (svc : Services) (user_input : string)
      (s : Session) :
  exists s' text, process_message svc user_input s = (s', Ok text).
Proof.
  rewrite process_message_run.
  destruct (_process_input_and_route svc _ s) as [s1 [st1|e]];
    [|now eexists _, _].
  destruct (_execute_search_or_respond svc st1 s1) as [s2 [st2|e]];
    now eexists _, _.
Qed.

(** X20. With no preference chain configured, a turn whose utterance
    holds a reset phrase clears the record and is answered with the
    acknowledgement whenever the router does not send the turn to product
    search (the utterance is out of domain, or shows no search intent);
    the acknowledged exchange is added to the memory. *)
Theorem reset_reached_without_search_intent :
  forall (svc : Services) (user_input : string) (s : Session),
    preference_chain svc = None ->
    PyStr.any_in reset_phrases (PyStr.lower user_input) = true ->
    is_relevant_to_shopping user_input
    && should_search_products user_input
         (has_active_preferences (current_preferences s)) = false ->
    process_message svc user_input s
    = (mkSession empty_preferences (current_preferences s)
                 (memory s ++ [HumanMessage user_input; AIMessage cleared_message])
                 (calls s),
       Ok cleared_message).
Proof.
  intros svc user_input s Hpref Hreset Hroute.
  rewrite process_message_run.
  unfold _process_input_and_route, _execute_search_or_respond,
    _handle_preference_update, _handle_general_conversation,
    update_preferences, clear_preferences.
  rewrite Hpref. cbn [question].
  destruct (is_relevant_to_shopping user_input); cbn [negb andb] in *.
  - unfold bind, try_except, get_session, modify, ret.
    cbn [fst snd current_preferences stale_preferences set_stale memory calls
         question set_should_retrieve should_retrieve].
    rewrite Hroute, preferences_same. cbn [question set_should_retrieve
                                           should_retrieve].
    rewrite Hreset. cbn. unfold add_message, set_preferences, set_stale. cbn.
    now rewrite <- app_assoc.
  - unfold bind, try_except, get_session, modify, ret.
    cbn [fst snd current_preferences stale_preferences set_stale memory calls
         question set_should_retrieve set_answer should_retrieve].
    rewrite preferences_same. cbn [question set_should_retrieve set_answer
                                   should_retrieve].
    rewrite Hreset. cbn. unfold add_message, set_preferences, set_stale. cbn.
    now rewrite <- app_assoc.
Qed.

Lemma reset_reached_without_search_intent_witness :
  process_message offline_services "could you reset preferences please"
                  black_session
  = (mkSession empty_preferences (current_preferences black_session)
               (memory black_session
                ++ [HumanMessage "could you reset preferences please";
                    AIMessage cleared_message])
               (calls black_session),
     Ok cleared_message).
Proof.
  apply (reset_reached_without_search_intent offline_services
           "could you reset preferences please" black_session);
    vm_compute; reflexivity.
Defined.

Lemma transcript_append (ui : list (string * string)) (a b : string * string) :
  forall t, transcript ui = Some t ->
            transcript (ui ++ [a; b]) = Some (t ++ [(snd a, snd b)]).
Proof.
  assert (H : forall n ui, (length ui <= n)%nat ->
              forall t, transcript ui = Some t ->
                        transcript (ui ++ [a; b]) = Some (t ++ [(snd a, snd b)])).
  { induction n as [|n IH]; intros l Hlen t Ht.
    - destruct l; [|simpl in Hlen; lia]. injection Ht as <-. reflexivity.
    - destruct l as [|x [|y rest]].
      + injection Ht as <-. reflexivity.
      + discriminate Ht.
      + cbn [transcript] in Ht.
        destruct (transcript rest) as [t'|] eqn:Hrest; [|discriminate].
        injection Ht as <-. cbn [app transcript].
        rewrite (IH rest) with (t := t'); [reflexivity | simpl in Hlen; lia
                                          | exact Hrest]. }
  intros t. apply (H (length ui)). lia.
Qed.

(** X21. Each call of [chat_interface] on a history of whole exchanges
    returns that history's pairs followed by one new pair, the utterance
    and its reply, and leaves a history of whole exchanges; for "exit" or
    "quit", in any letter case and with white space around, the reply is
    the farewell and the workflow's session is not touched. *)
Theorem chat_interface_appends_one_pair :
  forall (svc : Services) (user_input : string) (app : Interface)
         (t : list (string * string)),
    transcript (chat_history_ui app) = Some t ->
    exists reply,
      snd (chat_interface svc user_input app) = Some (t ++ [(user_input, reply)])
      /\ transcript (chat_history_ui (fst (chat_interface svc user_input app)))
         = Some (t ++ [(user_input, reply)])
      /\ (if is_exit user_input
          then reply = farewell_message
               /\ workflow_session (fst (chat_interface svc user_input app))
                  = workflow_session app
          else snd (process_message svc user_input (workflow_session app))
               = Ok reply).
Proof.
  intros svc user_input app t Ht. unfold chat_interface.
  destruct (is_exit user_input).
  - exists farewell_message. cbn [fst snd chat_history_ui workflow_session].
    rewrite (transcript_append _ _ _ t Ht). repeat split.
  - destruct (process_message_returns svc user_input
                (workflow_session app)) as (s' & text & Hrun).
    rewrite Hrun. exists text. cbn [fst snd chat_history_ui].
    rewrite (transcript_append _ _ _ t Ht). repeat split.
Qed.

Lemma chat_interface_appends_one_pair_witness :
  exists reply,
    snd (chat_interface offline_services " Quit "
           (mkInterface [("user", "hi"); ("assistant", canned_reply)] fresh_session))
    = Some ([("hi", canned_reply)] ++ [(" Quit ", reply)])
    /\ transcript (chat_history_ui
                     (fst (chat_interface offline_services " Quit "
                             (mkInterface [("user", "hi"); ("assistant", canned_reply)]
                                          fresh_session))))
       = Some ([("hi", canned_reply)] ++ [(" Quit ", reply)])
    /\ (if is_exit " Quit "
        then reply = farewell_message
             /\ workflow_session
                  (fst (chat_interface offline_services " Quit "
                          (mkInterface [("user", "hi"); ("assistant", canned_reply)]
                                       fresh_session)))
                = fresh_session
        else snd (process_message offline_services " Quit " fresh_session)
             = Ok reply).
Proof.
  exact (chat_interface_appends_one_pair offline_services " Quit "
           (mkInterface [("user", "hi"); ("assistant", canned_reply)] fresh_session)
           [("hi", canned_reply)] eq_refl).
Defined.

(** ** Routing and handlers *)

Lemma lower_ascii_idempotent (c : ascii) :
  PyStr.lower_ascii (PyStr.lower_ascii c) = PyStr.lower_ascii c.
Proof.
  destruct c as [[] [] [] [] [] [] [] []]; vm_compute; reflexivity.
Qed.

Lemma is_space_lower_ascii (c : ascii) :
  PyStr.is_space (PyStr.lower_ascii c) = PyStr.is_space c.
Proof.
  destruct c as [[] [] [] [] [] [] [] []]; vm_compute; reflexivity.
Qed.

Lemma lower_idempotent (s : string) : PyStr.lower (PyStr.lower s) = PyStr.lower s.
Proof.
  induction s as [|c s IH]; simpl; [reflexivity|].
  now rewrite lower_ascii_idempotent, IH.
Qed.

Lemma count_words_lower (inword : bool) (s : string) :
  PyStr.count_words inword (PyStr.lower s) = PyStr.count_words inword s.
Proof.
  revert inword. induction s as [|c s IH]; intros inword; simpl; [reflexivity|].
  rewrite is_space_lower_ascii, !IH. reflexivity.
Qed.

(** X22. Relevance, append-mode detection and search-intent detection
    do not depend on letter case: each gives the same answer on an
    utterance and on its lower-case form. *)
Theorem routing_ignores_case :
  forall (user_input : string) (has_preferences : bool),
    is_relevant_to_shopping (PyStr.lower user_input)
    = is_relevant_to_shopping user_input
    /\ _analyze_intent (PyStr.lower user_input) = _analyze_intent user_input
    /\ should_search_products (PyStr.lower user_input) has_preferences
       = should_search_products user_input has_preferences.
Proof.
  intros user_input has_preferences.
  unfold is_relevant_to_shopping, _analyze_intent, should_search_products.
  cbv zeta. rewrite !lower_idempotent, count_words_lower. repeat split.
Qed.

(** X23. Active preferences only widen search intent: an utterance
    that is routed to search without active preferences is routed to
    search with them. *)
Theorem preferences_widen_search_intent :
  forall (user_input : string),
    should_search_products user_input false = true ->
    should_search_products user_input true = true.
Proof.
  intros user_input. unfold should_search_products. cbv zeta.
  destruct (PyStr.any_in search_keywords (PyStr.lower user_input));
    [reflexivity|].
  cbn [andb].
  destruct (PyStr.any_in product_terms (PyStr.lower user_input));
    [|discriminate].
  intros _. now destruct (_ || _).
Qed.

Lemma preferences_widen_search_intent_witness :
  should_search_products "a roomy satchel in tan" true = true.
Proof.
  apply (preferences_widen_search_intent "a roomy satchel in tan").
  vm_compute. reflexivity.
Defined.

Lemma matches_same_hard_constraints (doc : Document) (p p' : UserPreferences) :
  same_hard_constraints p p' ->
  matches_preferences doc p = matches_preferences doc p'.
Proof.
  intros (H1 & H2 & H3 & H4 & H5).
  unfold matches_preferences, price_ok. cbv zeta.
  now rewrite H1, H2, H3, H4, H5.
Qed.

(** X24. Materials and features are no filter: two records that agree
    on price bounds, brands, colors and categories let through the same
    candidates, in the same order. *)
Theorem materials_and_features_do_not_filter :
  forall (catalog : list (string * string)) (docs : list Document)
         (p p' : UserPreferences) (max_results : Z),
    same_hard_constraints p p' ->
    filter_and_rank catalog docs p max_results
    = filter_and_rank catalog docs p' max_results.
Proof.
  intros catalog docs p p' max_results Hsame. unfold filter_and_rank.
  assert (Hstep : forall acc d,
             filter_step catalog p acc d = filter_step catalog p' acc d).
  { intros acc d. unfold filter_step.
    now rewrite (matches_same_hard_constraints d p p' Hsame). }
  assert (Hfold : forall l acc,
             fold_left (filter_step catalog p) l acc
             = fold_left (filter_step catalog p') l acc).
  { induction l as [|d l IH]; intros acc; [reflexivity|].
    cbn [fold_left]. now rewrite Hstep, IH. }
  now rewrite Hfold.
Qed.

Lemma materials_and_features_do_not_filter_witness :
  filter_and_rank one_item_catalog [priced (50 # 1); priced (200 # 1)]
                  (mkPrefs None (Some (100 # 1)) [] [] ["black"] ["suede"] ["zip"]) 6
  = filter_and_rank one_item_catalog [priced (50 # 1); priced (200 # 1)]
                    (mkPrefs None (Some (100 # 1)) [] [] ["black"] [] []) 6.
Proof.
  apply (materials_and_features_do_not_filter one_item_catalog
           [priced (50 # 1); priced (200 # 1)]
           (mkPrefs None (Some (100 # 1)) [] [] ["black"] ["suede"] ["zip"])
           (mkPrefs None (Some (100 # 1)) [] [] ["black"] [] []) 6).
  repeat split.
Defined.

Lemma join_cons (sep x : string) (l : list string) :
  PyStr.join sep (x :: l)
  = match l with
    | [] => x
    | _ :: _ => (x ++ sep ++ PyStr.join sep l)%string
    end.
Proof. destruct l; reflexivity. Qed.

(** X25. The search query begins with the user's own words: it is the
    utterance alone when the record has no materials, colors, categories
    and brands, and otherwise the utterance, a space, and those entries in
    that order joined by spaces. Features never enter the query. *)
Theorem query_starts_with_utterance :
  forall (user_question : string) (p : UserPreferences),
    let terms := materials p ++ colors p ++ categories p ++ brands p in
    build_search_query_with_preferences user_question p
    = (if nonempty terms
       then (user_question ++ " " ++ PyStr.join " " terms)%string
       else user_question)
    /\ String.prefix user_question
         (build_search_query_with_preferences user_question p) = true.
Proof.
  intros user_question p terms.
  unfold build_search_query_with_preferences. cbn [app]. fold terms.
  rewrite join_cons. destruct terms as [|t ts]; cbn [nonempty].
  - split; [reflexivity|]. apply prefix_append. exists "".
    induction user_question as [|c u IH]; simpl; [reflexivity | now rewrite <- IH].
  - split; [reflexivity|]. apply prefix_append. now eexists.
Qed.

(** X26. Without a loaded vector store a product search fails softly:
    the handler answers with the no-products message, the store is not
    called, and the session is left as it was. *)
Theorem search_without_store_finds_nothing :
  forall (svc : Services) (user_question : string) (state : BotState)
         (s : Session),
    vector_available svc = false ->
    _handle_product_search svc user_question state s
    = (s, Ok (set_answer no_products_message state)).
Proof.
  intros svc user_question state s Hav.
  unfold _handle_product_search, search_products. rewrite Hav. reflexivity.
Qed.

Lemma search_without_store_finds_nothing_witness :
  _handle_product_search offline_services "show me bags"
                         (mkState [] "show me bags" "" true) black_session
  = (black_session,
     Ok (set_answer no_products_message (mkState [] "show me bags" "" true))).
Proof.
  apply (search_without_store_finds_nothing offline_services "show me bags"
           (mkState [] "show me bags" "" true) black_session).
  reflexivity.
Defined.

(** X27. A reply generation that is not configured or that raises is
    answered with the canned reply, for every utterance without a reset
    phrase; the record and the memory are left as they were. *)
Theorem failed_reply_is_canned :
  forall (svc : Services) (user_question : string) (state : BotState)
         (s : Session),
    PyStr.any_in reset_phrases (PyStr.lower user_question) = false ->
    match conversation_chain svc with
    | None => True
    | Some chain =>
        exists e,
          chain (calls s) (get_summary svc (current_preferences s))
                (PyStr.join nl (map show_message (recent_messages (memory s))))
                user_question = Raise e
    end ->
    snd (_handle_general_conversation svc user_question state s)
    = Ok (set_answer canned_reply state)
    /\ current_preferences (fst (_handle_general_conversation svc user_question
                                   state s))
       = current_preferences s
    /\ memory (fst (_handle_general_conversation svc user_question state s))
       = memory s.
Proof.
  intros svc user_question state s Hreset Hchain.
  unfold _handle_general_conversation. rewrite Hreset.
  destruct (conversation_chain svc) as [chain|]; [|repeat split].
  destruct Hchain as [e He].
  unfold try_except, bind, get_session, next_call, lift, ret.
  cbn [fst snd current_preferences memory calls]. rewrite He.
  repeat split.
Qed.

Lemma failed_reply_is_canned_witness :
  snd (_handle_general_conversation broken_reply_services "hello there"
         (mkState [] "hello there" "" false) black_session)
  = Ok (set_answer canned_reply (mkState [] "hello there" "" false))
  /\ current_preferences
       (fst (_handle_general_conversation broken_reply_services "hello there"
               (mkState [] "hello there" "" false) black_session))
     = current_preferences black_session
  /\ memory (fst (_handle_general_conversation broken_reply_services "hello there"
                    (mkState [] "hello there" "" false) black_session))
     = memory black_session.
Proof.
  apply (failed_reply_is_canned broken_reply_services "hello there"
           (mkState [] "hello there" "" false) black_session).
  - reflexivity.
  - simpl. now exists (CollaboratorError "model timeout").
Defined.

(** X28. The reply chain is shown the last six messages of the memory,
    or all of them when there are fewer: the recent messages are a suffix
    of the memory of length min(6, length). *)
Theorem recent_messages_are_last_six :
  forall (messages : list Message),
    (exists older, messages = older ++ recent_messages messages)
    /\ length (recent_messages messages) = Nat.min 6 (length messages).
Proof.
  intros messages. unfold recent_messages.
  destruct (Nat.ltb_spec 6 (length messages)) as [H|H].
  - split.
    + exists (firstn (length messages - 6) messages).
      now rewrite firstn_skipn.
    + rewrite length_skipn. lia.
  - split; [now exists [] | lia].
Qed.
